(** * public_news_api: the three cached proxy handlers of [index.js]

    A shallow embedding of [app.get('/news')], [app.get('/news/find')] and
    [app.get('/news/search')].  JavaScript values are a small inductive type
    with the language's truthiness, string conversion and property access;
    a handler is a computation in a state-and-exception monad over the
    response cache and a log of the effects it performs (cache reads and
    writes, outbound calls, [console.error]). *)

From Stdlib Require Import ZArith String List.
From stdpp Require Import base option list strings gmap fin_maps pretty.

#[local] Set Warnings "-register-all".
Local Open Scope string_scope.
Local Open Scope Z_scope.

(** ** JavaScript values *)

Module JS.

(** Numbers are the integer-valued ones: the handlers only write the
    literals [10] and [1], and the query parser delivers strings, arrays
    and objects.  An object is its list of own properties, in order. *)
Inductive value : Type :=
| VUndefined
| VNull
| VBool (b : bool)
| VNum (z : Z)
| VStr (s : string)
| VArr (elems : list value)
| VObj (props : list (string * value)).

(** [ToBoolean]: what [if (x)], [!x] and [x ? a : b] test. *)
Definition truthy (v : value) : bool :=
  match v with
  | VUndefined | VNull => false
  | VBool b => b
  | VNum z => negb (Z.eqb z 0)
  | VStr s => negb (String.eqb s "")
  | VArr _ | VObj _ => true
  end.

Definition nullish (v : value) : bool :=
  match v with
  | VUndefined | VNull => true
  | _ => false
  end.

Fixpoint join (sep : string) (l : list string) : string :=
  match l with
  | [] => ""
  | [s] => s
  | s :: rest => s +:+ sep +:+ join sep rest
  end.

(** [ToString], as applied by a template literal [`${x}`].  An array is
    joined with commas, its [undefined] and [null] elements printing as the
    empty string; a plain object prints as ["[object Object]"].  This is
    the language's result on the values that print ([prints] below): on an
    object with an own [toString] property the language raises a
    [TypeError] instead, which this function does not show. *)
Fixpoint to_string (v : value) : string :=
  match v with
  | VUndefined => "undefined"
  | VNull => "null"
  | VBool true => "true"
  | VBool false => "false"
  | VNum z => pretty z
  | VStr s => s
  | VArr elems =>
      join ","
        ((fix go (l : list value) : list string :=
            match l with
            | [] => []
            | e :: l' => (if nullish e then "" else to_string e) :: go l'
            end) elems)
  | VObj _ => "[object Object]"
  end.

Fixpoint assoc (name : string) (props : list (string * value)) : option value :=
  match props with
  | [] => None
  | (k, v) :: rest => if String.eqb k name then Some v else assoc name rest
  end.

(** Property read [v.name] for a name that no prototype defines (all the
    names read in [index.js]: [articles], [title], [description], [url],
    [image], [publishedAt], [source], [name]).  [None] is the [TypeError]
    raised on [undefined] and [null]. *)
Definition prop (v : value) (name : string) : option value :=
  match v with
  | VUndefined | VNull => None
  | VObj props => Some (default VUndefined (assoc name props))
  | _ => Some VUndefined
  end.

Definition keys (v : value) : list string :=
  match v with
  | VObj props => map fst props
  | _ => []
  end.

End JS.
Export JS.

(** ** The response cache *)

Module Cache.

(** Modelled from the spec: the cache utility ([node-cache], a dependency
    whose code is not among the repository's sources), configured in
    [index.js] with [stdTTL: 600] and [checkperiod: 120].  An entry keeps
    its value and its insertion time, in seconds. *)
Record entry : Type := Entry { value_of : value; inserted : Z }.

Definition stdTTL : Z := 600.
Definition checkperiod : Z := 120.

(** Modelled from the spec: an entry lives at most [stdTTL] seconds from
    its insertion. *)
Definition live (now : Z) (e : entry) : bool := now <=? inserted e + stdTTL.

(** Modelled from the spec: [get(key)] returns the stored value if present
    and unexpired, otherwise signals absence. *)
Definition get (c : gmap string entry) (now : Z) (key : string) : option value :=
  match c !! key with
  | Some e => if live now e then Some (value_of e) else None
  | None => None
  end.

(** Modelled from the spec: [set(key, value)] stores the value under the
    default TTL and overwrites any existing entry unconditionally. *)
Definition set (c : gmap string entry) (now : Z) (key : string) (v : value)
  : gmap string entry :=
  <[key := Entry v now]> c.

(** Modelled from the spec: the periodic sweep removes the stale entries. *)
Definition sweep (now : Z) (c : gmap string entry) : gmap string entry :=
  filter (fun kv => live now (snd kv) = true) c.

End Cache.

(** ** Effects of a handler *)

Inductive exn : Type :=
| UpstreamError (detail : value)   (* the rejection of [axios.get] *)
| TypeError.                       (* a read on [undefined] or [null], a call of a non-function *)

(** What the provider answers to one outbound call. *)
Inductive upstream_result : Type :=
| Resolve (data : value)
| Reject (detail : value).

Record axios_response : Type := { data : value }.

Inductive event : Type :=
| CacheGet (key : string)
| CacheSet (key : string) (v : value)
| AxiosGet (url : string) (params : list (string * value))
| ConsoleError (error : exn).

Record state : Type := State { st_cache : gmap string Cache.entry; st_log : list event }.

Record response : Type := Response { status : Z; body : value }.

Record request : Type := Request { query : gmap string value }.

(** State over the cache and the effect log, with exceptions. *)
Definition M (A : Type) : Type := state -> (exn + A) * state.

#[global] Instance M_ret : MRet M := fun A (a : A) s => (inr a, s).

#[global] Instance M_bind : MBind M := fun A B (k : A -> M B) (m : M A) s =>
  match m s with
  | (inl e, s') => (inl e, s')
  | (inr a, s') => k a s'
  end.

Definition throw {A : Type} (e : exn) : M A := fun s => (inl e, s).

Definition try_catch {A : Type} (m : M A) (handler : exn -> M A) : M A := fun s =>
  match m s with
  | (inl e, s') => handler e s'
  | (inr a, s') => (inr a, s')
  end.

Definition emit (e : event) (s : state) : state :=
  State (st_cache s) (st_log s ++ [e]).

(** [req.query.name]: [undefined] when the parameter was not sent. *)
Definition param (req : request) (name : string) : value :=
  default VUndefined (query req !! name).

(** [const { name = dflt } = req.query]: the default stands in for
    [undefined] only. *)
Definition param_or (req : request) (name : string) (dflt : value) : value :=
  match param req name with
  | VUndefined => dflt
  | v => v
  end.

Definition get_prop (v : value) (name : string) : M value :=
  match prop v name with
  | Some x => mret x
  | None => throw TypeError
  end.

Fixpoint mapM (f : value -> M value) (l : list value) : M (list value) :=
  match l with
  | [] => mret []
  | x :: rest => y ← f x; ys ← mapM f rest; mret (y :: ys)
  end.

(** [v.map(f)]: defined on arrays only. *)
Definition array_map (f : value -> M value) (v : value) : M value :=
  match v with
  | VArr elems => out ← mapM f elems; mret (VArr out)
  | _ => throw TypeError
  end.

(** [res.json(v)]: the response records the value handed over; what
    the client receives of it is [sent] below. *)
Definition res_json (v : value) : M response := mret (Response 200 v).
Definition res_status_json (code : Z) (v : value) : M response := mret (Response code v).

Definition console_error (e : exn) : M unit := fun s => (inr tt, emit (ConsoleError e) s).

Definition message (text : string) : value := VObj [("message", VStr text)].

Section Handlers.

(** [process.env.API_KEY], the provider consulted by [axios.get], and the
    clock at which the request is served. *)
Variable apiKey : value.
Variable upstream : string -> list (string * value) -> upstream_result.
Variable now : Z.

Definition cache_get (key : string) : M value := fun s =>
  (inr (default VUndefined (Cache.get (st_cache s) now key)), emit (CacheGet key) s).

Definition cache_set (key : string) (v : value) : M unit := fun s =>
  (inr tt, emit (CacheSet key v) (State (Cache.set (st_cache s) now key v) (st_log s))).

Definition axios_get (url : string) (params : list (string * value)) : M axios_response :=
  fun s =>
    match upstream url params with
    | Resolve d => (inr {| data := d |}, emit (AxiosGet url params) s)
    | Reject detail => (inl (UpstreamError detail), emit (AxiosGet url params) s)
    end.

(** The arrow function passed to [map] in [/news]. *)
Definition reshape (article : value) : M value :=
  title ← get_prop article "title";
  description ← get_prop article "description";
  url ← get_prop article "url";
  image ← get_prop article "image";
  publishedAt ← get_prop article "publishedAt";
  source ← get_prop article "source";
  name ← get_prop source "name";
  source' ← get_prop article "source";
  source_url ← get_prop source' "url";
  mret (VObj [("title", title); ("description", description); ("url", url);
              ("image", image); ("publishedAt", publishedAt);
              ("source", VObj [("name", name); ("url", source_url)])]).

(** [app.get('/news', ...)] *)
Definition news (req : request) : M response :=
  let n := param_or req "n" (VNum 10) in
  let cacheKey := "news-" +:+ to_string n in
  cachedData ← cache_get cacheKey;
  if truthy cachedData then res_json cachedData
  else
    try_catch
      (response ← axios_get "https://gnews.io/api/v4/top-headlines"
                    [("token", apiKey); ("lang", VStr "en"); ("max", n)];
       articles ← get_prop (data response) "articles";
       data ← array_map reshape articles;
       cache_set cacheKey data;;
       res_json data)
      (fun error =>
         console_error error;;
         res_status_json 500 (message "Something went wrong")).

(** [app.get('/news/find', ...)] *)
Definition news_find (req : request) : M response :=
  let title := param req "title" in
  let author := param req "author" in
  let cacheKey := "news-find-" +:+ to_string title +:+ "-" +:+ to_string author in
  articles ← cache_get cacheKey;
  if truthy articles then res_json (VObj [("articles", articles)])
  else
    try_catch
      (response ← axios_get "https://gnews.io/api/v4/search"
                    [("q", title); ("token", apiKey); ("lang", VStr "en");
                     ("max", VNum 1);
                     ("in", VStr ("title" +:+
                                  (if truthy author
                                   then "&author=" +:+ to_string author
                                   else "")))];
       articles ← get_prop (data response) "articles";
       cache_set cacheKey articles;;
       res_json (VObj [("articles", articles)]))
      (fun error =>
         console_error error;;
         res_status_json 500 (message "Failed to find news article")).

(** [app.get('/news/search', ...)] *)
Definition news_search (req : request) : M response :=
  let keyword := param req "keyword" in
  if negb (truthy keyword) then res_status_json 400 (message "Missing search query")
  else
    let cacheKey := "news-search-" +:+ to_string keyword in
    articles ← cache_get cacheKey;
    if truthy articles then res_json (VObj [("articles", articles)])
    else
      try_catch
        (response ← axios_get "https://gnews.io/api/v4/search"
                      [("q", keyword); ("token", apiKey)];
         articles ← get_prop (data response) "articles";
         cache_set cacheKey articles;;
         res_json (VObj [("articles", articles)]))
        (fun error =>
           console_error error;;
           res_status_json 500 (message "Failed to fetch news articles")).

(** Serving one request on a cache, from an empty log. *)
Definition serve (handler : request -> M response) (c : gmap string Cache.entry)
    (req : request) : (exn + response) * state :=
  handler req (State c []).

End Handlers.

(** ** Observations on a served request *)

Definition is_upstream_call (e : event) : bool :=
  match e with
  | AxiosGet _ _ => true
  | _ => false
  end.

Definition upstream_calls (log : list event) : nat :=
  length (List.filter is_upstream_call log).

(** The keys of the cache reads and writes of a log, in order. *)
Fixpoint cache_keys (log : list event) : list string :=
  match log with
  | [] => []
  | CacheGet k :: rest => k :: cache_keys rest
  | CacheSet k _ :: rest => k :: cache_keys rest
  | _ :: rest => cache_keys rest
  end.

(** A property read that cannot fail: [undefined] where [prop] raises. *)
Definition pick (v : value) (name : string) : value :=
  default VUndefined (prop v name).

(** The record [reshape] builds from an upstream article, and the articles
    on which it does not raise: those that are neither [undefined] nor
    [null] and whose [source] is neither. *)
Definition article_shape (a : value) : value :=
  VObj [("title", pick a "title"); ("description", pick a "description");
        ("url", pick a "url"); ("image", pick a "image");
        ("publishedAt", pick a "publishedAt");
        ("source", VObj [("name", pick (pick a "source") "name");
                         ("url", pick (pick a "source") "url")])].

Definition well_formed (a : value) : bool :=
  negb (nullish a) && negb (nullish (pick a "source")).

Definition article_fields : list string :=
  ["title"; "description"; "url"; "image"; "publishedAt"; "source"].

Definition source_fields : list string := ["name"; "url"].

(** [o] has exactly the six documented fields, [source] exactly its two,
    each with the value the upstream record [a] has there. *)
Definition six_fields_of (a o : value) : Prop :=
  keys o = article_fields
  /\ keys (pick o "source") = source_fields
  /\ (forall f, In f ["title"; "description"; "url"; "image"; "publishedAt"] ->
        pick o f = pick a f)
  /\ (forall f, In f source_fields ->
        pick (pick o "source") f = pick (pick a "source") f).

(** The three routes, the key each derives from a request (none on
    [/news/search] when the keyword guard answers), and how each presents
    a cached or fetched payload. *)
Inductive route : Type := RNews | RFind | RSearch.

Definition handler (rt : route) :=
  match rt with
  | RNews => news
  | RFind => news_find
  | RSearch => news_search
  end.

Definition cache_key (rt : route) (req : request) : option string :=
  match rt with
  | RNews => Some ("news-" +:+ to_string (param_or req "n" (VNum 10)))
  | RFind => Some ("news-find-" +:+ to_string (param req "title") +:+ "-" +:+
                  to_string (param req "author"))
  | RSearch => if truthy (param req "keyword")
              then Some ("news-search-" +:+ to_string (param req "keyword"))
              else None
  end.

Definition present (rt : route) (payload : value) : value :=
  match rt with
  | RNews => payload
  | RFind | RSearch => VObj [("articles", payload)]
  end.

Definition payload (rt : route) (body : value) : value :=
  match rt with
  | RNews => body
  | RFind | RSearch => pick body "articles"
  end.

(** The periodic sweeps that ran at the given times. *)
Definition sweeps (times : list Z) (c : gmap string Cache.entry)
  : gmap string Cache.entry :=
  foldl (fun acc t => Cache.sweep t acc) c times.

(** What a route stores and presents from the [data] of a resolved call:
    [/news] maps [reshape] over [data.articles], the other two take
    [data.articles] as it is.  [None] where the handler raises. *)
Definition fetched (rt : route) (d : value) : option value :=
  match rt with
  | RNews =>
      match prop d "articles" with
      | Some (VArr l) =>
          if forallb well_formed l then Some (VArr (map article_shape l)) else None
      | _ => None
      end
  | RFind | RSearch => prop d "articles"
  end.

Definition failure_message (rt : route) : string :=
  match rt with
  | RNews => "Something went wrong"
  | RFind => "Failed to find news article"
  | RSearch => "Failed to fetch news articles"
  end.

Section Outcomes.

Variable upstream : string -> list (string * value) -> upstream_result.
Variable now : Z.
Variable c : gmap string Cache.entry.
Variable req : request.

(** [cache.get(key)] as the handler sees it: [undefined] on absence. *)
Definition cached (key : string) : value :=
  default VUndefined (Cache.get c now key).

(** The five ways a request is answered: the keyword guard, a cache hit,
    a fetch that is stored, a rejected call, and a resolved call whose
    data makes the handler raise. *)
Inductive served (rt : route) : response -> state -> Prop :=
| served_guard :
    cache_key rt req = None ->
    served rt (Response 400 (message "Missing search query")) (State c [])
| served_hit key :
    cache_key rt req = Some key ->
    truthy (cached key) = true ->
    served rt (Response 200 (present rt (cached key))) (State c [CacheGet key])
| served_fetch key url params d v :
    cache_key rt req = Some key ->
    truthy (cached key) = false ->
    upstream url params = Resolve d ->
    fetched rt d = Some v ->
    served rt (Response 200 (present rt v))
      (State (Cache.set c now key v)
         [CacheGet key; AxiosGet url params; CacheSet key v])
| served_reject key url params detail :
    cache_key rt req = Some key ->
    truthy (cached key) = false ->
    upstream url params = Reject detail ->
    served rt (Response 500 (message (failure_message rt)))
      (State c [CacheGet key; AxiosGet url params;
                ConsoleError (UpstreamError detail)])
| served_malformed key url params d :
    cache_key rt req = Some key ->
    truthy (cached key) = false ->
    upstream url params = Resolve d ->
    fetched rt d = None ->
    served rt (Response 500 (message (failure_message rt)))
      (State c [CacheGet key; AxiosGet url params; ConsoleError TypeError]).

End Outcomes.

(** ** What the client receives *)

Definition is_undefined (v : value) : bool :=
  match v with
  | VUndefined => true
  | _ => false
  end.

(** [JSON.stringify], read back as a value: what [res.json(v)] puts on the
    wire.  A property whose value is [undefined] is omitted, an [undefined]
    array element becomes [null], everything else is kept. *)
Fixpoint json (v : value) : value :=
  match v with
  | VArr elems =>
      VArr ((fix go (l : list value) : list value :=
               match l with
               | [] => []
               | e :: l' => (if is_undefined e then VNull else json e) :: go l'
               end) elems)
  | VObj props =>
      VObj ((fix go (ps : list (string * value)) : list (string * value) :=
               match ps with
               | [] => []
               | (k, e) :: ps' =>
                   if is_undefined e then go ps' else (k, json e) :: go ps'
               end) props)
  | _ => v
  end.

(** The body of a response as the client receives it; [body] is the value
    the handler hands to [res.json]. *)
Definition sent (r : response) : value := json (body r).

(** The values a JSON text denotes: no [undefined] anywhere.  The [data]
    of a provider response is one. *)
Fixpoint is_json (v : value) : bool :=
  match v with
  | VUndefined => false
  | VArr elems =>
      (fix go (l : list value) : bool :=
         match l with
         | [] => true
         | e :: l' => is_json e && go l'
         end) elems
  | VObj props =>
      (fix go (ps : list (string * value)) : bool :=
         match ps with
         | [] => true
         | (_, e) :: ps' => is_json e && go ps'
         end) props
  | _ => true
  end.

(** The values a template literal can print.  An object with an own
    [toString] property, which is never a function here, makes [ToString]
    raise a [TypeError]; so does an array with such an element.  On the
    values that print, [to_string] is the language's [ToString]. *)
Fixpoint prints (v : value) : bool :=
  match v with
  | VObj props =>
      match assoc "toString" props with
      | Some _ => false
      | None => true
      end
  | VArr elems =>
      (fix go (l : list value) : bool :=
         match l with
         | [] => true
         | e :: l' => (nullish e || prints e) && go l'
         end) elems
  | _ => true
  end.

(** The parameters a route prints into its key. *)
Definition printed (rt : route) (req : request) : list value :=
  match rt with
  | RNews => [param_or req "n" (VNum 10)]
  | RFind => [param req "title"; param req "author"]
  | RSearch => [param req "keyword"]
  end.

(** The outbound call of each route: the address and the [params] object
    handed to [axios.get]. *)
Definition outbound (rt : route) (apiKey : value) (req : request)
  : string * list (string * value) :=
  match rt with
  | RNews =>
      ("https://gnews.io/api/v4/top-headlines",
       [("token", apiKey); ("lang", VStr "en"); ("max", param_or req "n" (VNum 10))])
  | RFind =>
      ("https://gnews.io/api/v4/search",
       [("q", param req "title"); ("token", apiKey); ("lang", VStr "en");
        ("max", VNum 1);
        ("in", VStr ("title" +:+
                     (if truthy (param req "author")
                      then "&author=" +:+ to_string (param req "author")
                      else "")))])
  | RSearch =>
      ("https://gnews.io/api/v4/search",
       [("q", param req "keyword"); ("token", apiKey)])
  end.

(** [w] is what the client receives for the upstream record [a]: of the
    six documented fields those that [a] defines, [source] with those of
    its two that the source of [a] defines, each with the upstream value as
    sent, and nothing else. *)
Definition documented_fields_of (a w : value) : Prop :=
  keys w = List.filter (fun f => negb (is_undefined (pick a f))) article_fields
  /\ keys (pick w "source")
     = List.filter (fun f => negb (is_undefined (pick (pick a "source") f))) source_fields
  /\ (forall f, In f ["title"; "description"; "url"; "image"; "publishedAt"] ->
        pick w f = json (pick a f))
  /\ (forall f, In f source_fields ->
        pick (pick w "source") f = json (pick (pick a "source") f)).

(** An upstream record that defines all six documented fields and both
    fields of its source. *)
Definition complete (a : value) : bool :=
  forallb (fun f => negb (is_undefined (pick a f))) article_fields
  && forallb (fun f => negb (is_undefined (pick (pick a "source") f))) source_fields.

(** ** Sample data

    A provider record with fields beyond the documented six, and three
    providers: one that answers with it, one whose call is rejected, one
    that answers without an article list. *)

Definition sample_article : value :=
  VObj [("title", VStr "T"); ("description", VStr "D"); ("content", VStr "C");
        ("url", VStr "U"); ("image", VNull);
        ("publishedAt", VStr "2023-05-01T00:00:00Z");
        ("source", VObj [("name", VStr "S"); ("url", VStr "V"); ("id", VStr "s1")])].
Definition provider_up : string -> list (string * value) -> upstream_result :=
  fun _ _ => Resolve (VObj [("totalArticles", VNum 1); ("articles", VArr [sample_article])]).
Definition provider_down : string -> list (string * value) -> upstream_result :=
  fun _ _ => Reject (VStr "ECONNREFUSED").
Definition empty_cache : gmap string Cache.entry := ∅.
Definition no_params : request := Request ∅.
Definition provider_null : string -> list (string * value) -> upstream_result :=
  fun _ _ => Resolve (VObj [("articles", VNull)]).
Definition provider_broken : string -> list (string * value) -> upstream_result :=
  fun _ _ => Resolve (VObj [("articles", VArr [sample_article; VNull])]).
Definition provider_void : string -> list (string * value) -> upstream_result :=
  fun _ _ => Resolve VNull.
Definition provider_empty : string -> list (string * value) -> upstream_result :=
  fun _ _ => Resolve (VObj [("totalArticles", VNum 0); ("articles", VArr [])]).
Definition provider_sparse : string -> list (string * value) -> upstream_result :=
  fun _ _ =>
    Resolve (VObj [("articles",
                    VArr [VObj [("title", VStr "T");
                                ("source", VObj [("name", VStr "S")])]])]).

(** ** The cache *)

Lemma get_set_same c t1 t2 key v :
  t2 <= t1 + Cache.stdTTL -> Cache.get (Cache.set c t1 key v) t2 key = Some v.
Proof.
  intros Hle. unfold Cache.get, Cache.set. rewrite lookup_insert_eq.
  unfold Cache.live. cbn. destruct (Z.leb_spec t2 (t1 + Cache.stdTTL)); [done | lia].
Qed.

Lemma get_set_other c t1 t2 key key' v :
  key <> key' -> Cache.get (Cache.set c t1 key v) t2 key' = Cache.get c t2 key'.
Proof.
  intros Hne. unfold Cache.get, Cache.set. by rewrite lookup_insert_ne.
Qed.

Lemma live_earlier t now e : t <= now -> Cache.live now e = true -> Cache.live t e = true.
Proof. unfold Cache.live. intros Hle H. apply Z.leb_le in H. apply Z.leb_le. lia. Qed.

Lemma get_sweep c t now key :
  t <= now -> Cache.get (Cache.sweep t c) now key = Cache.get c now key.
Proof.
  intros Hle. unfold Cache.get, Cache.sweep. rewrite map_lookup_filter.
  destruct (c !! key) as [e|] eqn:He; cbn; [|done].
  destruct (Cache.live now e) eqn:Hnow.
  - rewrite option_guard_True by (cbn; eauto using live_earlier). cbn. by rewrite Hnow.
  - case_guard; cbn; [by rewrite Hnow | done].
Qed.

Lemma get_sweeps times : forall c now key,
  Forall (fun t => t <= now) times ->
  Cache.get (sweeps times c) now key = Cache.get c now key.
Proof.
  induction times as [|t times IH]; intros c now key Hall; [done|].
  inversion Hall; subst. cbn. fold (sweeps times (Cache.sweep t c)).
  rewrite IH by done. by apply get_sweep.
Qed.

(** ** The article mapping is pure *)

Lemma reshape_run a s :
  reshape a s = (if well_formed a then inr (article_shape a) else inl TypeError, s).
Proof.
  destruct a as [| |b|z|str|l|props]; try reflexivity.
  unfold reshape, well_formed, article_shape, pick. cbn.
  destruct (default VUndefined (assoc "source" props)); reflexivity.
Qed.

Lemma mapM_reshape_run l : forall s,
  mapM reshape l s =
  (if forallb well_formed l then inr (map article_shape l) else inl TypeError, s).
Proof.
  induction l as [|a l IH]; intros s; [reflexivity|].
  cbn [mapM forallb map]. unfold mbind, M_bind. rewrite reshape_run.
  destruct (well_formed a); cbn; [|reflexivity].
  rewrite IH. destruct (forallb well_formed l); reflexivity.
Qed.

(** ** The paths through the handlers *)

Ltac run_handler :=
  unfold serve, news, news_find, news_search, mbind, M_bind, cache_get,
    cache_set, axios_get, try_catch, get_prop, array_map, console_error,
    res_json, res_status_json, throw, mret, M_ret, emit; cbn.

Section Paths.

Variable apiKey : value.
Variable upstream : string -> list (string * value) -> upstream_result.
Variable now : Z.
Variable c : gmap string Cache.entry.
Variable req : request.

Local Abbreviation cached := (cached now c).

Local Abbreviation headlines_key := ("news-" +:+ to_string (param_or req "n" (VNum 10))).
Local Abbreviation headlines_url := "https://gnews.io/api/v4/top-headlines".
Local Abbreviation headlines_params :=
  [("token", apiKey); ("lang", VStr "en"); ("max", param_or req "n" (VNum 10))].

Lemma news_hit :
  truthy (cached headlines_key) = true ->
  serve (news apiKey upstream now) c req =
  (inr (Response 200 (cached headlines_key)), State c [CacheGet headlines_key]).
Proof. intros Hit. unfold cached in Hit. run_handler. by rewrite Hit. Qed.

Lemma news_miss :
  truthy (cached headlines_key) = false ->
  serve (news apiKey upstream now) c req =
  let failed e :=
    (inr (Response 500 (message "Something went wrong")),
     State c [CacheGet headlines_key; AxiosGet headlines_url headlines_params;
              ConsoleError e]) in
  match upstream headlines_url headlines_params with
  | Reject detail => failed (UpstreamError detail)
  | Resolve d =>
      match prop d "articles" with
      | Some (VArr l) =>
          if forallb well_formed l
          then (inr (Response 200 (VArr (map article_shape l))),
                State (Cache.set c now headlines_key (VArr (map article_shape l)))
                  [CacheGet headlines_key; AxiosGet headlines_url headlines_params;
                   CacheSet headlines_key (VArr (map article_shape l))])
          else failed TypeError
      | _ => failed TypeError
      end
  end.
Proof.
  intros Miss. unfold cached in Miss. run_handler. rewrite Miss.
  destruct (upstream _ _) as [d|detail]; cbn; [|reflexivity].
  destruct (prop d "articles") as [[| | | | |l|]|]; cbn; try reflexivity.
  unfold mbind, M_bind. rewrite mapM_reshape_run.
  destruct (forallb well_formed l); reflexivity.
Qed.

Local Abbreviation find_key :=
  ("news-find-" +:+ to_string (param req "title") +:+ "-" +:+
   to_string (param req "author")).
Local Abbreviation search_url := "https://gnews.io/api/v4/search".
Local Abbreviation find_params :=
  [("q", param req "title"); ("token", apiKey); ("lang", VStr "en");
   ("max", VNum 1);
   ("in", VStr ("title" +:+ (if truthy (param req "author")
                             then "&author=" +:+ to_string (param req "author")
                             else "")))].

Lemma find_hit :
  truthy (cached find_key) = true ->
  serve (news_find apiKey upstream now) c req =
  (inr (Response 200 (VObj [("articles", cached find_key)])),
   State c [CacheGet find_key]).
Proof. intros Hit. unfold cached in Hit. run_handler. by rewrite Hit. Qed.

Lemma find_miss :
  truthy (cached find_key) = false ->
  serve (news_find apiKey upstream now) c req =
  let failed e :=
    (inr (Response 500 (message "Failed to find news article")),
     State c [CacheGet find_key; AxiosGet search_url find_params; ConsoleError e]) in
  match upstream search_url find_params with
  | Reject detail => failed (UpstreamError detail)
  | Resolve d =>
      match prop d "articles" with
      | Some articles =>
          (inr (Response 200 (VObj [("articles", articles)])),
           State (Cache.set c now find_key articles)
             [CacheGet find_key; AxiosGet search_url find_params;
              CacheSet find_key articles])
      | None => failed TypeError
      end
  end.
Proof.
  intros Miss. unfold cached in Miss. run_handler. rewrite Miss.
  destruct (upstream _ _) as [d|detail]; cbn; [|reflexivity].
  destruct (prop d "articles"); reflexivity.
Qed.

Local Abbreviation search_key := ("news-search-" +:+ to_string (param req "keyword")).
Local Abbreviation search_params := [("q", param req "keyword"); ("token", apiKey)].

Lemma search_guard :
  truthy (param req "keyword") = false ->
  serve (news_search apiKey upstream now) c req =
  (inr (Response 400 (message "Missing search query")), State c []).
Proof. intros Hk. run_handler. by rewrite Hk. Qed.

Lemma search_hit :
  truthy (param req "keyword") = true ->
  truthy (cached search_key) = true ->
  serve (news_search apiKey upstream now) c req =
  (inr (Response 200 (VObj [("articles", cached search_key)])),
   State c [CacheGet search_key]).
Proof. intros Hk Hit. unfold cached in Hit. run_handler. rewrite Hk. cbn. by rewrite Hit. Qed.

Lemma search_miss :
  truthy (param req "keyword") = true ->
  truthy (cached search_key) = false ->
  serve (news_search apiKey upstream now) c req =
  let failed e :=
    (inr (Response 500 (message "Failed to fetch news articles")),
     State c [CacheGet search_key; AxiosGet search_url search_params;
              ConsoleError e]) in
  match upstream search_url search_params with
  | Reject detail => failed (UpstreamError detail)
  | Resolve d =>
      match prop d "articles" with
      | Some articles =>
          (inr (Response 200 (VObj [("articles", articles)])),
           State (Cache.set c now search_key articles)
             [CacheGet search_key; AxiosGet search_url search_params;
              CacheSet search_key articles])
      | None => failed TypeError
      end
  end.
Proof.
  intros Hk Miss. unfold cached in Miss. run_handler. rewrite Hk. cbn. rewrite Miss.
  destruct (upstream _ _) as [d|detail]; cbn; [|reflexivity].
  destruct (prop d "articles"); reflexivity.
Qed.

(** Every request is answered, in one of the five ways of [served]. *)
Lemma serve_served (rt : route) :
  exists r s,
    serve (handler rt apiKey upstream now) c req = (inr r, s)
    /\ served upstream now c req rt r s.
Proof.
  destruct rt; cbn [handler].
  - destruct (truthy (cached headlines_key)) eqn:Hc.
    { rewrite news_hit by done. do 2 eexists. split; [done|].
      by apply (served_hit _ _ _ _ RNews headlines_key). }
    rewrite news_miss by done. cbn zeta.
    destruct (upstream _ _) as [d|detail] eqn:Hup.
    2:{ do 2 eexists. split; [done|]. by eapply (served_reject _ _ _ _ RNews). }
    destruct (prop d "articles") as [[| | | | |l|]|] eqn:Hp;
      try destruct (forallb well_formed l) eqn:Hwf;
      do 2 eexists; (split; [done|]);
      solve [ eapply (served_fetch _ _ _ _ RNews); eauto;
                cbn; by rewrite Hp, Hwf
            | eapply (served_malformed _ _ _ _ RNews); eauto;
                cbn; rewrite Hp; try rewrite Hwf; done ].
  - destruct (truthy (cached find_key)) eqn:Hc.
    { rewrite find_hit by done. do 2 eexists. split; [done|].
      by apply (served_hit _ _ _ _ RFind find_key). }
    rewrite find_miss by done. cbn zeta.
    destruct (upstream _ _) as [d|detail] eqn:Hup.
    2:{ do 2 eexists. split; [done|]. by eapply (served_reject _ _ _ _ RFind). }
    destruct (prop d "articles") as [v|] eqn:Hf; do 2 eexists; (split; [done|]).
    + by eapply (served_fetch _ _ _ _ RFind).
    + by eapply (served_malformed _ _ _ _ RFind).
  - destruct (truthy (param req "keyword")) eqn:Hk.
    2:{ rewrite search_guard by done. do 2 eexists. split; [done|].
        apply served_guard. cbn. by rewrite Hk. }
    assert (cache_key RSearch req = Some search_key) as Hkey by (cbn; by rewrite Hk).
    destruct (truthy (cached search_key)) eqn:Hc.
    { rewrite search_hit by done. do 2 eexists. split; [done|].
      by apply (served_hit _ _ _ _ RSearch search_key). }
    rewrite search_miss by done. cbn zeta.
    destruct (upstream _ _) as [d|detail] eqn:Hup.
    2:{ do 2 eexists. split; [done|]. by eapply (served_reject _ _ _ _ RSearch). }
    destruct (prop d "articles") as [v|] eqn:Hf; do 2 eexists; (split; [done|]).
    + by eapply (served_fetch _ _ _ _ RSearch).
    + by eapply (served_malformed _ _ _ _ RSearch).
Qed.

End Paths.

(** ** Facts shared by the claims *)

Lemma serve_inv apiKey upstream now c req rt r s :
  serve (handler rt apiKey upstream now) c req = (inr r, s) ->
  served upstream now c req rt r s.
Proof.
  intros Hrun. destruct (serve_served apiKey upstream now c req rt) as (r' & s' & E & S).
  rewrite E in Hrun. by inversion Hrun; subst.
Qed.

Lemma call_in_log key url url' params params' e :
  is_upstream_call e = false ->
  In (AxiosGet url params) [CacheGet key; AxiosGet url' params'; e] ->
  url = url' /\ params = params'.
Proof.
  intros He [Heq|[Heq|[Heq|[]]]]; try discriminate.
  - by inversion Heq.
  - subst e. discriminate.
Qed.

Lemma article_shape_six_fields a : six_fields_of a (article_shape a).
Proof.
  repeat split.
  - intros f Hf. cbn in Hf.
    destruct Hf as [<-|[<-|[<-|[<-|[<-|[]]]]]]; reflexivity.
  - intros f Hf. cbn in Hf. destruct Hf as [<-|[<-|[]]]; reflexivity.
Qed.

Lemma present_payload rt v : payload rt (present rt v) = v.
Proof. by destruct rt. Qed.

Lemma fetched_headlines_truthy d v : fetched RNews d = Some v -> truthy v = true.
Proof.
  cbn. destruct (prop d "articles") as [[| | | | |l|]|]; try discriminate.
  destruct (forallb well_formed l); [|discriminate]. by intros [= <-].
Qed.

Lemma served_keys upstream now c req rt r s :
  served upstream now c req rt r s ->
  match cache_key rt req with
  | Some key =>
      head (cache_keys (st_log s)) = Some key /\ Forall (eq key) (cache_keys (st_log s))
  | None => cache_keys (st_log s) = []
  end.
Proof.
  intros S.
  inversion S as [Hkey|key Hkey|key ? ? ? ? Hkey|key ? ? ? Hkey|key ? ? ? Hkey];
    subst; rewrite Hkey; cbn; repeat constructor.
Qed.

Lemma keys_used apiKey upstream now c req rt :
  match cache_key rt req with
  | Some key =>
      head (cache_keys (st_log (snd (serve (handler rt apiKey upstream now) c req))))
        = Some key
      /\ Forall (eq key)
           (cache_keys (st_log (snd (serve (handler rt apiKey upstream now) c req))))
  | None =>
      cache_keys (st_log (snd (serve (handler rt apiKey upstream now) c req))) = []
  end.
Proof.
  destruct (serve_served apiKey upstream now c req rt) as (r & s & E & S).
  rewrite E. cbn [snd]. by eapply served_keys.
Qed.

(** A live, truthy entry under the request's key is what the route answers
    with, after the cache read and nothing else. *)
Lemma hit_served apiKey upstream now c req rt key v :
  cache_key rt req = Some key ->
  Cache.get c now key = Some v ->
  truthy v = true ->
  serve (handler rt apiKey upstream now) c req =
  (inr (Response 200 (present rt v)), State c [CacheGet key]).
Proof.
  intros Hkey Hget Hv.
  destruct (serve_served apiKey upstream now c req rt) as (r & s & E & S).
  rewrite E.
  inversion S as [Hk|k Hk Ht|k ? ? ? ? Hk Ht|k ? ? ? Hk Ht|k ? ? ? Hk Ht]; subst;
    rewrite Hkey in Hk; try discriminate; injection Hk as <-;
    unfold cached in *; rewrite Hget in *; cbn in *; congruence.
Qed.

(** What one route fetched and stored, any route deriving the same key
    answers with for the next 600 seconds, sweeps or not. *)
Lemma fetched_then_hit apiKey up1 up2 t1 t2 times c req req' rt rt' r s :
  serve (handler rt apiKey up1 t1) c req = (inr r, s) ->
  status r = 200 ->
  upstream_calls (st_log s) = 1%nat ->
  truthy (payload rt (body r)) = true ->
  cache_key rt' req' = cache_key rt req ->
  t1 <= t2 <= t1 + 600 ->
  Forall (fun t => t <= t2) times ->
  exists key,
    cache_key rt req = Some key
    /\ r = Response 200 (present rt (payload rt (body r)))
    /\ serve (handler rt' apiKey up2 t2) (sweeps times (st_cache s)) req' =
       (inr (Response 200 (present rt' (payload rt (body r)))),
        State (sweeps times (st_cache s)) [CacheGet key]).
Proof.
  intros Hrun Hst Hcalls Hv Hsame Hwin Hsw. apply serve_inv in Hrun.
  inversion Hrun as [Hk|k Hk Ht|k ? ? ? v Hk Ht|k ? ? ? Hk Ht|k ? ? ? Hk Ht]; subst;
    cbn in Hst, Hcalls; try discriminate.
  cbn [body st_cache] in *. rewrite present_payload in *. exists k. do 2 (split; [done|]).
  apply hit_served; [congruence | | done].
  rewrite get_sweeps by done. cbn. apply get_set_same. unfold Cache.stdTTL. lia.
Qed.

(** On a miss, the outcome is decided by what the provider answers to the
    route's call. *)
Lemma miss_served apiKey upstream now c req rt key :
  cache_key rt req = Some key ->
  truthy (cached now c key) = false ->
  serve (handler rt apiKey upstream now) c req =
  let call := AxiosGet (fst (outbound rt apiKey req)) (snd (outbound rt apiKey req)) in
  let failed e :=
    (inr (Response 500 (message (failure_message rt))),
     State c [CacheGet key; call; ConsoleError e]) in
  match upstream (fst (outbound rt apiKey req)) (snd (outbound rt apiKey req)) with
  | Reject detail => failed (UpstreamError detail)
  | Resolve d =>
      match fetched rt d with
      | Some v =>
          (inr (Response 200 (present rt v)),
           State (Cache.set c now key v) [CacheGet key; call; CacheSet key v])
      | None => failed TypeError
      end
  end.
Proof.
  intros Hkey Hmiss. destruct rt; cbn [handler outbound fst snd fetched].
  - cbn in Hkey. injection Hkey as <-. rewrite news_miss by done. cbn zeta.
    destruct (upstream _ _) as [d|detail]; [|done].
    destruct (prop d "articles") as [[| | | | |l|]|]; try done.
    by destruct (forallb well_formed l).
  - cbn in Hkey. injection Hkey as <-. rewrite find_miss by done. cbn zeta.
    destruct (upstream _ _) as [d|detail]; [|done].
    by destruct (prop d "articles").
  - cbn in Hkey. destruct (truthy (param req "keyword")) eqn:Hk; [|discriminate].
    injection Hkey as <-. rewrite search_miss by done. cbn zeta.
    destruct (upstream _ _) as [d|detail]; [|done].
    by destruct (prop d "articles").
Qed.

(** ** Serialisation *)

Lemma json_id : forall v, is_json v = true -> json v = v.
Proof.
  fix IH 1. intros [| |b|z|str|l|props] Hv; try reflexivity.
  - cbn in *. f_equal. induction l as [|e l IHl]; [reflexivity|].
    apply andb_prop in Hv as [He Hl].
    rewrite (IH e He), (IHl Hl). by destruct e.
  - cbn in *. f_equal. induction props as [|[k e] ps IHps]; [reflexivity|].
    apply andb_prop in Hv as [He Hps].
    rewrite (IH e He), (IHps Hps). by destruct e.
Qed.

Lemma json_records (l : list value) :
  json (VArr (map article_shape l)) = VArr (map (fun a => json (article_shape a)) l).
Proof.
  cbn. f_equal. induction l as [|a l IH]; [reflexivity|]. cbn. by rewrite IH.
Qed.

Lemma is_undefined_true v : is_undefined v = true -> v = VUndefined.
Proof. by destruct v. Qed.

Lemma sent_article_documented a :
  nullish (pick a "source") = false ->
  documented_fields_of a (json (article_shape a)).
Proof.
  intros Hsrc. unfold documented_fields_of, article_shape, article_fields, source_fields.
  assert (is_undefined (pick a "source") = false) as Hs
    by (by destruct (pick a "source")).
  cbn. rewrite Hs. clear Hs Hsrc.
  split; [|split; [|split]].
  - generalize (pick a "title"), (pick a "description"), (pick a "url"),
      (pick a "image"), (pick a "publishedAt"). intros t d u i p. cbn.
    by destruct (is_undefined t), (is_undefined d), (is_undefined u),
      (is_undefined i), (is_undefined p).
  - generalize (pick (pick a "source") "name"), (pick (pick a "source") "url"),
      (pick a "title"), (pick a "description"), (pick a "url"),
      (pick a "image"), (pick a "publishedAt"). intros n su t d u i p. cbn.
    by destruct (is_undefined t), (is_undefined d), (is_undefined u),
      (is_undefined i), (is_undefined p), (is_undefined n), (is_undefined su).
  - intros f Hf.
    destruct Hf as [<-|[<-|[<-|[<-|[<-|[]]]]]];
      generalize (pick a "title"), (pick a "description"), (pick a "url"),
        (pick a "image"), (pick a "publishedAt"); intros t d u i p; cbn;
      destruct (is_undefined t) eqn:Ht, (is_undefined d) eqn:Hd,
        (is_undefined u) eqn:Hu, (is_undefined i) eqn:Hi, (is_undefined p) eqn:Hp;
      repeat match goal with
             | H : is_undefined _ = true |- _ => apply is_undefined_true in H; subst
             end; reflexivity.
  - intros f Hf.
    destruct Hf as [<-|[<-|[]]];
      generalize (pick (pick a "source") "name"), (pick (pick a "source") "url"),
        (pick a "title"), (pick a "description"), (pick a "url"),
        (pick a "image"), (pick a "publishedAt"); intros n su t d u i p; cbn;
      destruct (is_undefined t), (is_undefined d), (is_undefined u),
        (is_undefined i), (is_undefined p);
      destruct (is_undefined n) eqn:Hn, (is_undefined su) eqn:Hsu;
      repeat match goal with
             | H : is_undefined _ = true |- _ => apply is_undefined_true in H; subst
             end; reflexivity.
Qed.

Lemma complete_all_fields a w :
  documented_fields_of a w -> complete a = true ->
  keys w = article_fields /\ keys (pick w "source") = source_fields.
Proof.
  intros (Hk & Hs & _) Hc. unfold complete in Hc. apply andb_prop in Hc as [Ha Hb].
  rewrite Hk, Hs. split.
  - cbn in Ha |- *. repeat (apply andb_prop in Ha as [-> Ha]). reflexivity.
  - cbn in Hb |- *. repeat (apply andb_prop in Hb as [-> Hb]). reflexivity.
Qed.

Section Claims.

Variable apiKey : value.
Variable upstream : string -> list (string * value) -> upstream_result.
Variable now : Z.
Variable c : gmap string Cache.entry.
Variable req : request.


(** C5: on [/news/find] and [/news/search], when the outbound call
    resolves with data whose [articles] can be read, the handler answers
    status 200 with [{articles: data.articles}], the value untouched, and
    stores that same value in the cache under the request's key; the client
    receives it unchanged, as the provider's data is a JSON value. *)
Theorem find_and_search_return_upstream_articles (rt : route) (key : string)
    (d articles : value) :
  rt <> RNews ->
  cache_key rt req = Some key ->
  truthy (cached now c key) = false ->
  upstream (fst (outbound rt apiKey req)) (snd (outbound rt apiKey req)) = Resolve d ->
  prop d "articles" = Some articles ->
  let r := Response 200 (VObj [("articles", articles)]) in
  serve (handler rt apiKey upstream now) c req =
    (inr r,
     State (Cache.set c now key articles)
       [CacheGet key;
        AxiosGet (fst (outbound rt apiKey req)) (snd (outbound rt apiKey req));
        CacheSet key articles])
  /\ Cache.get (Cache.set c now key articles) now key = Some articles
  /\ (is_json articles = true -> sent r = VObj [("articles", articles)]).
Proof.
  intros Hrt Hkey Hmiss Hres Hart r.
  assert (fetched rt d = Some articles) as Hf by (by destruct rt).
  split; [|split].
  - rewrite (miss_served _ _ _ _ _ _ _ Hkey Hmiss). cbn zeta. rewrite Hres, Hf.
    by destruct rt.
  - apply get_set_same. unfold Cache.stdTTL. lia.
  - intros Hjson. unfold sent, r. cbn [body].
    rewrite (json_id (VObj [("articles", articles)])); [done|].
    cbn. by rewrite Hjson.
Qed.

(** C4 (amended): on [/news], when the outbound call resolves with an
    array of articles (none of them, nor its [source], [undefined] or
    [null]), the handler answers status 200 with an array of as many
    records and stores that array in the cache.  Each record has exactly
    the keys title, description, url, image, publishedAt and source, the
    latter exactly name and url, with the upstream values, [undefined] for
    a field the upstream record lacks.  What the client receives has, for
    each record, those of the six fields that the upstream record defines
    and no other field: all six when the record defines them all. *)
Theorem news_articles_keep_documented_fields (d : value) (arts : list value) :
  let n := param_or req "n" (VNum 10) in
  let key := "news-" +:+ to_string n in
  let call := AxiosGet "https://gnews.io/api/v4/top-headlines"
                [("token", apiKey); ("lang", VStr "en"); ("max", n)] in
  truthy (cached now c key) = false ->
  upstream "https://gnews.io/api/v4/top-headlines"
    [("token", apiKey); ("lang", VStr "en"); ("max", n)] = Resolve d ->
  prop d "articles" = Some (VArr arts) ->
  forallb well_formed arts = true ->
  exists out wire,
    serve (news apiKey upstream now) c req =
      (inr (Response 200 (VArr out)),
       State (Cache.set c now key (VArr out))
         [CacheGet key; call; CacheSet key (VArr out)])
    /\ Cache.get (Cache.set c now key (VArr out)) now key = Some (VArr out)
    /\ Forall2 six_fields_of arts out
    /\ sent (Response 200 (VArr out)) = VArr wire
    /\ Forall2 documented_fields_of arts wire
    /\ Forall2 (fun a w => complete a = true ->
                  keys w = article_fields /\ keys (pick w "source") = source_fields)
         arts wire.
Proof.
  intros n key call Hmiss Hres Hart Hwf.
  exists (map article_shape arts), (map (fun a => json (article_shape a)) arts).
  split; [|split; [|split; [|split; [|split]]]].
  - rewrite news_miss by done. cbn zeta. fold n. rewrite Hres, Hart, Hwf. done.
  - apply get_set_same. unfold Cache.stdTTL. lia.
  - clear. induction arts; constructor; auto using article_shape_six_fields.
  - unfold sent. cbn [body]. apply json_records.
  - clear -Hwf. induction arts as [|a arts IH]; [constructor|].
    cbn in Hwf. apply andb_prop in Hwf as [Ha Hrest]. constructor; [|auto].
    apply sent_article_documented. unfold well_formed in Ha.
    apply andb_prop in Ha as [_ Ha]. by destruct (nullish (pick a "source")).
  - clear -Hwf. induction arts as [|a arts IH]; [constructor|].
    cbn in Hwf. apply andb_prop in Hwf as [Ha Hrest]. constructor; [|auto].
    apply complete_all_fields. apply sent_article_documented. unfold well_formed in Ha.
    apply andb_prop in Ha as [_ Ha]. by destruct (nullish (pick a "source")).
Qed.


(** C8 (amended): on a cache miss, [/news/find] makes one outbound
    call, to the search endpoint, with [q] the title, the token, [lang]
    ["en"], [max] 1, and [in] the single string ["title"] when author is
    absent or the empty string and ["title&author=<author>"] otherwise. *)
Theorem find_upstream_parameters :
  let title := param req "title" in
  let author := param req "author" in
  let key := "news-find-" +:+ to_string title +:+ "-" +:+ to_string author in
  truthy (cached now c key) = false ->
  exists rest,
    st_log (snd (serve (news_find apiKey upstream now) c req)) =
      CacheGet key
      :: AxiosGet "https://gnews.io/api/v4/search"
           [("q", title); ("token", apiKey); ("lang", VStr "en"); ("max", VNum 1);
            ("in", VStr (if truthy author
                         then "title&author=" +:+ to_string author
                         else "title"))]
      :: rest
    /\ upstream_calls (st_log (snd (serve (news_find apiKey upstream now) c req))) = 1%nat
    /\ (query req !! "author" = None -> truthy author = false)
    /\ (query req !! "author" = Some (VStr "") -> truthy author = false)
    /\ (forall a, query req !! "author" = Some (VStr a) -> a <> "" ->
        truthy author = true /\ to_string author = a).
Proof.
  intros title author key Miss. rewrite find_miss by done. cbn zeta.
  fold title author key.
  assert (forall b : bool,
            "title" +:+ (if b then "&author=" +:+ to_string author else "") =
            (if b then "title&author=" +:+ to_string author else "title")) as ->
    by (by intros []).
  assert ((query req !! "author" = None -> truthy author = false)
          /\ (query req !! "author" = Some (VStr "") -> truthy author = false)
          /\ (forall a, query req !! "author" = Some (VStr a) -> a <> "" ->
              truthy author = true /\ to_string author = a)) as Hauthor.
  { unfold author, param. split; [|split].
    - by intros ->.
    - by intros ->.
    - intros a -> Ha. cbn. by destruct a. }
  destruct (upstream _ _) as [d|detail]; [destruct (prop d "articles")|];
    eexists; (split; [reflexivity|]); (split; [reflexivity|]); exact Hauthor.
Qed.

(** C2 (amended): [/news/search] without [keyword] answers status 400
    with [{message: "Missing search query"}] and does nothing else: no cache
    read, no cache write, no outbound call.  With a keyword that is present
    and truthy (a non-empty string, an array, an object) the answer is not
    that 400 and the cache is consulted. *)
Theorem search_keyword_guard :
  (query req !! "keyword" = None ->
   serve (news_search apiKey upstream now) c req =
   (inr (Response 400 (message "Missing search query")), State c []))
  /\ (truthy (param req "keyword") = true ->
      exists r s,
        serve (news_search apiKey upstream now) c req = (inr r, s)
        /\ status r <> 400
        /\ exists rest,
             st_log s =
             CacheGet ("news-search-" +:+ to_string (param req "keyword")) :: rest).
Proof.
  split.
  - intros Hk. apply search_guard. unfold param. by rewrite Hk.
  - intros Hk.
    destruct (serve_served apiKey upstream now c req RSearch) as (r & s & E & S).
    exists r, s. split; [exact E|].
    inversion S as [Hkey|key Hkey|key ? ? ? ? Hkey|key ? ? ? Hkey|key ? ? ? Hkey];
      subst; cbn in Hkey; rewrite Hk in Hkey; try discriminate;
      injection Hkey as <-; (split; [done | eauto]).
Qed.

(** C9: a [keyword] that is present but the empty string takes the
    missing-parameter branch, with status 400 and
    [{message: "Missing search query"}] and no effect at all, exactly as the
    same request without the parameter. *)
Theorem search_empty_keyword_is_missing :
  query req !! "keyword" = Some (VStr "") ->
  serve (news_search apiKey upstream now) c req =
    (inr (Response 400 (message "Missing search query")), State c [])
  /\ serve (news_search apiKey upstream now) c req =
     serve (news_search apiKey upstream now) c
       (Request (delete "keyword" (query req))).
Proof.
  intros Hk.
  rewrite !search_guard; [done | |].
  - unfold param. cbn. by rewrite lookup_delete_eq.
  - unfold param. by rewrite Hk.
Qed.


End Claims.

(** C1 (amended): a live cache entry under the request's key whose
    value is truthy (every array is, the empty one too) is returned as it
    is, bare on [/news] and under [articles] on the other two routes, after
    the cache read and without any outbound call.  So a request answered 200
    from the provider with a truthy payload (on [/news] the payload always
    is) gets the identical answer when repeated within 600 seconds, sweeps
    or not, with one outbound call across the pair. *)
Theorem cached_payload_served_without_upstream
    (apiKey : value) (upstream : string -> list (string * value) -> upstream_result)
    (now : Z) (c : gmap string Cache.entry) (req : request) :
  (forall rt key v,
      cache_key rt req = Some key ->
      Cache.get c now key = Some v ->
      truthy v = true ->
      serve (handler rt apiKey upstream now) c req =
      (inr (Response 200 (present rt v)), State c [CacheGet key]))
  /\ (forall rt r s upstream' later times,
        serve (handler rt apiKey upstream now) c req = (inr r, s) ->
        status r = 200 ->
        upstream_calls (st_log s) = 1%nat ->
        truthy (payload rt (body r)) = true ->
        now <= later <= now + 600 ->
        Forall (fun t => t <= later) times ->
        exists s',
          serve (handler rt apiKey upstream' later) (sweeps times (st_cache s)) req =
            (inr r, s')
          /\ st_cache s' = sweeps times (st_cache s)
          /\ upstream_calls (st_log s') = 0%nat
          /\ upstream_calls (st_log s ++ st_log s') = 1%nat)
  /\ (forall r s,
        serve (news apiKey upstream now) c req = (inr r, s) ->
        status r = 200 ->
        upstream_calls (st_log s) = 1%nat ->
        truthy (body r) = true).
Proof.
  split; [|split].
  - intros rt key v. apply hit_served.
  - intros rt r s upstream' later times Hrun Hst Hcalls Hv Hwin Hsw.
    destruct (fetched_then_hit apiKey upstream upstream' now later times c req req
                rt rt r s) as (key & Hkey & Hr & Hnext); try done.
    rewrite <- Hr in Hnext. eexists. split; [exact Hnext|]. cbn [st_cache st_log].
    split; [done|]. split; [done|].
    unfold upstream_calls in *. rewrite List.filter_app, length_app, Hcalls. done.
  - intros r s Hrun Hst Hcalls. apply (serve_inv _ _ _ _ _ RNews) in Hrun.
    inversion Hrun; subst; cbn in Hst, Hcalls; try discriminate.
    cbn. eauto using fetched_headlines_truthy.
Qed.

(** C10: [/news] with [n = "find-X-Y"] and [/news/find] with title [X]
    and author [Y] read and write the same key, ["news-find-X-Y"].  What
    either of them fetched the other answers with for the next 600 seconds:
    [/news] returns the raw list stored by [/news/find], not reshaped, and
    [/news/find] wraps the reshaped list stored by [/news]. *)
Theorem cache_keys_collide_across_routes
    (apiKey : value) (up1 up2 : string -> list (string * value) -> upstream_result)
    (t1 t2 : Z) (c : gmap string Cache.entry) (X Y : string) :
  let req_find := Request (<["author" := VStr Y]> {["title" := VStr X]}) in
  let req_news := Request {["n" := VStr ("find-" +:+ X +:+ "-" +:+ Y)]} in
  let key := "news-find-" +:+ X +:+ "-" +:+ Y in
  head (cache_keys (st_log (snd (serve (news apiKey up1 t1) c req_news)))) = Some key
  /\ head (cache_keys (st_log (snd (serve (news_find apiKey up1 t1) c req_find))))
     = Some key
  /\ (forall r s,
        serve (news_find apiKey up1 t1) c req_find = (inr r, s) ->
        status r = 200 ->
        upstream_calls (st_log s) = 1%nat ->
        truthy (pick (body r) "articles") = true ->
        t1 <= t2 <= t1 + 600 ->
        serve (news apiKey up2 t2) (st_cache s) req_news =
        (inr (Response 200 (pick (body r) "articles")),
         State (st_cache s) [CacheGet key]))
  /\ (forall r s,
        serve (news apiKey up1 t1) c req_news = (inr r, s) ->
        status r = 200 ->
        upstream_calls (st_log s) = 1%nat ->
        t1 <= t2 <= t1 + 600 ->
        serve (news_find apiKey up2 t2) (st_cache s) req_find =
        (inr (Response 200 (VObj [("articles", body r)])),
         State (st_cache s) [CacheGet key])).
Proof.
  intros req_find req_news key.
  assert (cache_key RNews req_news = Some key) as Hn.
  { cbn. unfold param_or, param. cbn. by rewrite lookup_singleton_eq. }
  assert (cache_key RFind req_find = Some key) as Hf.
  { cbn. unfold param. cbn.
    rewrite lookup_insert_eq, lookup_insert_ne, lookup_singleton_eq by done. done. }
  split; [|split; [|split]].
  - pose proof (keys_used apiKey up1 t1 c req_news RNews) as H.
    rewrite Hn in H. apply H.
  - pose proof (keys_used apiKey up1 t1 c req_find RFind) as H.
    rewrite Hf in H. apply H.
  - intros r s Hrun Hst Hcalls Hv Hwin.
    destruct (fetched_then_hit apiKey up1 up2 t1 t2 [] c req_find req_news
                RFind RNews r s) as (k & Hk & _ & Hnext); try done.
    assert (k = key) as -> by congruence. exact Hnext.
  - intros r s Hrun Hst Hcalls Hwin.
    destruct (fetched_then_hit apiKey up1 up2 t1 t2 [] c req_news req_find
                RNews RFind r s) as (k & Hk & _ & Hnext); try done.
    { apply (serve_inv _ _ _ _ _ RNews) in Hrun.
      inversion Hrun; subst; cbn in Hst, Hcalls; try discriminate.
      cbn. eauto using fetched_headlines_truthy. }
    assert (k = key) as -> by congruence. exact Hnext.
Qed.

(** ** Requests on which C1, C2, C4 and C8 fail as first stated *)

(** C1 as first stated fails at [/news/find?title=a] when the provider
    answers [{articles: null}]: the cache then holds a live entry, [null],
    under the request's key, yet the repeated request calls the provider
    again, two outbound calls across the pair. *)
Lemma falsy_payload_fetched_again :
  let req := Request {["title" := VStr "a"]} in
  let first := serve (news_find (VStr "k") provider_null 0) empty_cache req in
  let second := serve (news_find (VStr "k") provider_null 1) (st_cache (snd first)) req in
  Cache.get (st_cache (snd first)) 1 "news-find-a-undefined" = Some VNull
  /\ upstream_calls (st_log (snd second)) = 1%nat
  /\ upstream_calls (st_log (snd first) ++ st_log (snd second)) = 2%nat.
Proof. vm_compute. repeat split. Qed.

(** C2 as first stated fails at [/news/search?keyword=]: the keyword is
    present, and the 400 branch is taken. *)
Lemma empty_keyword_present_but_rejected :
  let req := Request {["keyword" := VStr ""]} in
  query req !! "keyword" = Some (VStr "")
  /\ serve (news_search (VStr "k") provider_up 0) empty_cache req =
     (inr (Response 400 (message "Missing search query")), State empty_cache []).
Proof. vm_compute. repeat split. Qed.

(** C8 as first stated fails at [/news/find?title=a&author=]: the author
    is present, and [in] is ["title"], not ["title&author="]. *)
Lemma empty_author_present_but_not_embedded :
  let req := Request (<["author" := VStr ""]> {["title" := VStr "a"]}) in
  query req !! "author" = Some (VStr "")
  /\ st_log (snd (serve (news_find (VStr "k") provider_up 0) empty_cache req)) =
     [CacheGet "news-find-a-";
      AxiosGet "https://gnews.io/api/v4/search"
        [("q", VStr "a"); ("token", VStr "k"); ("lang", VStr "en");
         ("max", VNum 1); ("in", VStr "title")];
      CacheSet "news-find-a-" (VArr [sample_article])].
Proof. vm_compute. repeat split. Qed.

(** C4 as first stated fails at [/news] when the provider's article has
    only a title and a source name: the record the client receives has two
    fields, and its source one. *)
Lemma sparse_article_loses_fields :
  let r := Response 200
             (VArr [VObj [("title", VStr "T"); ("description", VUndefined);
                          ("url", VUndefined); ("image", VUndefined);
                          ("publishedAt", VUndefined);
                          ("source", VObj [("name", VStr "S"); ("url", VUndefined)])]]) in
  fst (serve (news (VStr "k") provider_sparse 0) empty_cache no_params) = inr r
  /\ sent r = VArr [VObj [("title", VStr "T"); ("source", VObj [("name", VStr "S")])]].
Proof. vm_compute. repeat split. Qed.

(** ** The theorems at concrete requests *)

Ltac by_computation := vm_compute; reflexivity.


(** C5 on [/news/find?title=a] and [/news/search?keyword=x] with the
    provider up. *)
Lemma find_and_search_return_upstream_articles_witness :
  let find := Request {["title" := VStr "a"]} in
  let search := Request {["keyword" := VStr "x"]} in
  let r := Response 200 (VObj [("articles", VArr [sample_article])]) in
  (fst (serve (news_find (VStr "k") provider_up 0) empty_cache find) = inr r
   /\ Cache.get (st_cache (snd (serve (news_find (VStr "k") provider_up 0) empty_cache find)))
        0 "news-find-a-undefined" = Some (VArr [sample_article]))
  /\ (fst (serve (news_search (VStr "k") provider_up 0) empty_cache search) = inr r
      /\ Cache.get (st_cache (snd (serve (news_search (VStr "k") provider_up 0)
                                     empty_cache search)))
           0 "news-search-x" = Some (VArr [sample_article]))
  /\ sent r = VObj [("articles", VArr [sample_article])].
Proof.
  intros find search r.
  assert (cache_key RFind find = Some "news-find-a-undefined") as Hf by by_computation.
  assert (cache_key RSearch search = Some "news-search-x") as Hs by by_computation.
  destruct (find_and_search_return_upstream_articles (VStr "k") provider_up 0
              empty_cache find RFind "news-find-a-undefined"
              (VObj [("totalArticles", VNum 1); ("articles", VArr [sample_article])])
              (VArr [sample_article]) ltac:(discriminate) Hf ltac:(by_computation)
              eq_refl eq_refl) as (Hrun1 & Hget1 & Hsent).
  destruct (find_and_search_return_upstream_articles (VStr "k") provider_up 0
              empty_cache search RSearch "news-search-x"
              (VObj [("totalArticles", VNum 1); ("articles", VArr [sample_article])])
              (VArr [sample_article]) ltac:(discriminate) Hs ltac:(by_computation)
              eq_refl eq_refl) as (Hrun2 & Hget2 & _).
  cbn [handler] in Hrun1, Hrun2.
  split; [|split].
  - rewrite Hrun1. split; [reflexivity | exact Hget1].
  - rewrite Hrun2. split; [reflexivity | exact Hget2].
  - apply Hsent. reflexivity.
Defined.

(** C4 (amended) at [/news] with the provider up: the record that comes
    back has lost [content] and [source.id] and, the sample being complete,
    has all six fields. *)
Lemma news_articles_keep_documented_fields_witness :
  exists out wire,
    fst (serve (news (VStr "k") provider_up 0) empty_cache no_params)
      = inr (Response 200 (VArr out))
    /\ sent (Response 200 (VArr out)) = VArr wire
    /\ Forall2 documented_fields_of [sample_article] wire
    /\ Forall2 (fun a w => complete a = true ->
                  keys w = article_fields /\ keys (pick w "source") = source_fields)
         [sample_article] wire.
Proof.
  destruct (news_articles_keep_documented_fields (VStr "k") provider_up 0 empty_cache
              no_params
              (VObj [("totalArticles", VNum 1); ("articles", VArr [sample_article])])
              [sample_article] ltac:(by_computation) ltac:(by_computation)
              eq_refl eq_refl)
    as (out & wire & Hrun & _ & _ & Hsent & Hdoc & Hall).
  exists out, wire. rewrite Hrun. repeat split; assumption.
Defined.


(** C8 (amended) at [/news/find?title=a&author=b] on an empty cache. *)
Lemma find_upstream_parameters_witness :
  let req := Request (<["author" := VStr "b"]> {["title" := VStr "a"]}) in
  truthy (cached 0 empty_cache
            ("news-find-" +:+ to_string (param req "title") +:+ "-" +:+
             to_string (param req "author"))) = false
  /\ upstream_calls
       (st_log (snd (serve (news_find (VStr "k") provider_up 0) empty_cache req)))
     = 1%nat.
Proof.
  intros req.
  assert (truthy (cached 0 empty_cache
            ("news-find-" +:+ to_string (param req "title") +:+ "-" +:+
             to_string (param req "author"))) = false) as Hmiss by by_computation.
  split; [exact Hmiss|].
  destruct (find_upstream_parameters (VStr "k") provider_up 0 empty_cache req Hmiss)
    as (rest & _ & Hone & _).
  exact Hone.
Defined.

(** C2 (amended) at [/news/search] without parameters and at
    [/news/search?keyword=x]. *)
Lemma search_keyword_guard_witness :
  (query no_params !! "keyword" = None
   /\ serve (news_search (VStr "k") provider_up 0) empty_cache no_params =
      (inr (Response 400 (message "Missing search query")), State empty_cache []))
  /\ (truthy (param (Request {["keyword" := VStr "x"]}) "keyword") = true
      /\ exists r s,
           serve (news_search (VStr "k") provider_up 0) empty_cache
             (Request {["keyword" := VStr "x"]}) = (inr r, s)
           /\ status r <> 400).
Proof.
  assert (query no_params !! "keyword" = None) as Hnone by by_computation.
  assert (truthy (param (Request {["keyword" := VStr "x"]}) "keyword") = true)
    as Hsome by by_computation.
  split; (split; [assumption|]).
  - exact (proj1 (search_keyword_guard (VStr "k") provider_up 0 empty_cache no_params)
             Hnone).
  - destruct (proj2 (search_keyword_guard (VStr "k") provider_up 0 empty_cache
                       (Request {["keyword" := VStr "x"]})) Hsome)
      as (r & s & Hrun & Hst & _).
    exists r, s. split; assumption.
Defined.

(** C9 at [/news/search?keyword=]. *)
Lemma search_empty_keyword_is_missing_witness :
  let req := Request {["keyword" := VStr ""]} in
  query req !! "keyword" = Some (VStr "")
  /\ serve (news_search (VStr "k") provider_up 0) empty_cache req =
     (inr (Response 400 (message "Missing search query")), State empty_cache []).
Proof.
  intros req.
  assert (query req !! "keyword" = Some (VStr "")) as Hk by by_computation.
  split; [exact Hk|].
  exact (proj1 (search_empty_keyword_is_missing (VStr "k") provider_up 0
                  empty_cache req Hk)).
Defined.


(** C1 (amended): a stored empty list is a hit on [/news/find?title=a]
    with the provider down, and [/news] repeated after 600 seconds and
    three sweeps is answered from the cache. *)
Lemma cached_payload_served_without_upstream_witness :
  let stored := Cache.set empty_cache 0 "news-find-a-undefined" (VArr []) in
  let req := Request {["title" := VStr "a"]} in
  let first := serve (news (VStr "k") provider_up 0) empty_cache no_params in
  serve (news_find (VStr "k") provider_down 600) stored req =
    (inr (Response 200 (VObj [("articles", VArr [])])),
     State stored [CacheGet "news-find-a-undefined"])
  /\ exists s',
       serve (news (VStr "k") provider_down 600)
         (sweeps [120; 240; 360] (st_cache (snd first))) no_params = (fst first, s')
       /\ upstream_calls (st_log (snd first) ++ st_log s') = 1%nat.
Proof.
  intros stored req first. split.
  - apply (proj1 (cached_payload_served_without_upstream (VStr "k") provider_down
                    600 stored req) RFind); by_computation.
  - pose (r := Response 200 (VArr [article_shape sample_article])).
    assert (first = (inr r, snd first)) as Hfirst by by_computation.
    destruct (proj1 (proj2 (cached_payload_served_without_upstream (VStr "k")
                 provider_up 0 empty_cache no_params)) RNews r (snd first)
                 provider_down 600 [120; 240; 360] Hfirst)
      as (s' & Hnext & _ & _ & Hone).
    + reflexivity.
    + by_computation.
    + reflexivity.
    + lia.
    + repeat constructor; lia.
    + exists s'. split; [|exact Hone].
      change (fst first) with (fst (first)). rewrite Hfirst at 2. exact Hnext.
Defined.

(** C10 at [X], [Y]: what [/news/find?title=X&author=Y] stored is
    returned by [/news?n=find-X-Y], raw. *)
Lemma cache_keys_collide_across_routes_witness :
  let req_find := Request (<["author" := VStr "Y"]> {["title" := VStr "X"]}) in
  let req_news := Request {["n" := VStr "find-X-Y"]} in
  let r := Response 200 (VObj [("articles", VArr [sample_article])]) in
  let s := snd (serve (news_find (VStr "k") provider_up 0) empty_cache req_find) in
  serve (news_find (VStr "k") provider_up 0) empty_cache req_find = (inr r, s)
  /\ serve (news (VStr "k") provider_down 10) (st_cache s) req_news =
     (inr (Response 200 (VArr [sample_article])),
      State (st_cache s) [CacheGet "news-find-X-Y"]).
Proof.
  intros req_find req_news r s.
  assert (serve (news_find (VStr "k") provider_up 0) empty_cache req_find = (inr r, s))
    as Hrun by by_computation.
  split; [exact Hrun|].
  destruct (cache_keys_collide_across_routes (VStr "k") provider_up provider_down
              0 10 empty_cache "X" "Y") as (_ & _ & Hserved & _).
  apply (Hserved r s Hrun).
  - reflexivity.
  - by_computation.
  - reflexivity.
  - lia.
Defined.

(** ** Further facts about the cache and the handlers *)

Lemma sweeps_lookup_Some times : forall c key e,
  sweeps times c !! key = Some e -> c !! key = Some e.
Proof.
  induction times as [|t times IH]; intros c key e H; [done|].
  cbn in H. fold (sweeps times (Cache.sweep t c)) in H.
  apply IH in H. unfold Cache.sweep in H.
  by apply map_lookup_filter_Some in H as [H _].
Qed.

Lemma get_sweeps_set times c t later key v :
  Cache.get (sweeps times (Cache.set c t key v)) later key = None
  \/ (later <= t + 600
      /\ Cache.get (sweeps times (Cache.set c t key v)) later key = Some v).
Proof.
  unfold Cache.get.
  destruct (sweeps times (Cache.set c t key v) !! key) as [e|] eqn:He; [|by left].
  apply sweeps_lookup_Some in He. unfold Cache.set in He.
  rewrite lookup_insert_eq in He. injection He as <-.
  unfold Cache.live, Cache.stdTTL. cbn.
  destruct (Z.leb_spec later (t + 600)); [by right | by left].
Qed.

Lemma get_sweeps_set_expired times c t later key v :
  t + 600 < later ->
  Cache.get (sweeps times (Cache.set c t key v)) later key = None.
Proof.
  intros Hlate. destruct (get_sweeps_set times c t later key v) as [H|[H _]]; [done | lia].
Qed.

Lemma cached_truthy_get now c key :
  truthy (cached now c key) = true ->
  Cache.get c now key = Some (cached now c key).
Proof.
  unfold cached. by destruct (Cache.get c now key).
Qed.

Lemma no_key_only_on_guard rt req :
  cache_key rt req = None <-> rt = RSearch /\ truthy (param req "keyword") = false.
Proof.
  destruct rt; cbn; try (split; [discriminate | by intros [? _]]).
  destruct (truthy (param req "keyword")); split; try done; by intros [_ ?].
Qed.

(** The answer and the effects of a request depend on the cache only
    through what [get] returns for the request's key. *)
Lemma serve_depends_on_own_key apiKey upstream now c1 c2 req rt :
  (forall key, cache_key rt req = Some key ->
               Cache.get c1 now key = Cache.get c2 now key) ->
  fst (serve (handler rt apiKey upstream now) c1 req)
    = fst (serve (handler rt apiKey upstream now) c2 req)
  /\ st_log (snd (serve (handler rt apiKey upstream now) c1 req))
     = st_log (snd (serve (handler rt apiKey upstream now) c2 req)).
Proof.
  intros Hsame.
  assert (forall key, cache_key rt req = Some key ->
                      cached now c1 key = cached now c2 key) as Hc
    by (intros key Hk; unfold cached; by rewrite (Hsame key Hk)).
  destruct rt; cbn [handler].
  - specialize (Hc _ eq_refl).
    destruct (truthy (cached now c1 ("news-" +:+ to_string (param_or req "n" (VNum 10)))))
      eqn:Ht.
    + rewrite !news_hit by congruence. by rewrite Hc.
    + rewrite !news_miss by congruence. cbn zeta.
      destruct (upstream _ _) as [d|detail]; [|done].
      destruct (prop d "articles") as [[| | | | |l|]|]; try done.
      by destruct (forallb well_formed l).
  - specialize (Hc _ eq_refl).
    destruct (truthy (cached now c1
                ("news-find-" +:+ to_string (param req "title") +:+ "-" +:+
                 to_string (param req "author")))) eqn:Ht.
    + rewrite !find_hit by congruence. by rewrite Hc.
    + rewrite !find_miss by congruence. cbn zeta.
      destruct (upstream _ _) as [d|detail]; [|done].
      by destruct (prop d "articles").
  - destruct (truthy (param req "keyword")) eqn:Hk.
    2:{ by rewrite !search_guard. }
    assert (cache_key RSearch req
            = Some ("news-search-" +:+ to_string (param req "keyword"))) as Hkey
      by (cbn; by rewrite Hk).
    specialize (Hc _ Hkey).
    destruct (truthy (cached now c1 ("news-search-" +:+ to_string (param req "keyword"))))
      eqn:Ht.
    + rewrite !search_hit by congruence. by rewrite Hc.
    + rewrite !search_miss by congruence. cbn zeta.
      destruct (upstream _ _) as [d|detail]; [|done].
      by destruct (prop d "articles").
Qed.

Lemma append_assoc (a b d : string) : (a +:+ b) +:+ d = a +:+ (b +:+ d).
Proof.
  induction a as [|ch a IH]; [done|].
  change (String ch ((a +:+ b) +:+ d) = String ch (a +:+ b +:+ d)). by rewrite IH.
Qed.

(** ** Further properties of the handlers *)

Section Further.

Variable apiKey : value.
Variable upstream : string -> list (string * value) -> upstream_result.
Variable now : Z.
Variable c : gmap string Cache.entry.
Variable req : request.

(** X1: no exception leaves a handler on a request whose parameters print:
    it gets a response, with status 200, 400 or 500, and 400 is the answer
    exactly on [/news/search] with a missing or empty keyword ([/news] and
    [/news/find] never answer 400). *)
Theorem every_request_is_answered (rt : route) :
  forallb prints (printed rt req) = true ->
  exists r s,
    serve (handler rt apiKey upstream now) c req = (inr r, s)
    /\ (status r = 200 \/ status r = 400 \/ status r = 500)
    /\ (status r = 400 <-> rt = RSearch /\ truthy (param req "keyword") = false).
Proof.
  intros _.
  destruct (serve_served apiKey upstream now c req rt) as (r & s & E & S).
  exists r, s. split; [exact E|].
  inversion S as [Hkey|key Hkey|key ? ? ? ? Hkey|key ? ? ? Hkey|key ? ? ? Hkey];
    subst; cbn [status].
  - split; [auto|]. split; [intros _; by apply no_key_only_on_guard | done].
  - split; [auto|]. split; [done|]. intros Hg. apply no_key_only_on_guard in Hg. congruence.
  - split; [auto|]. split; [done|]. intros Hg. apply no_key_only_on_guard in Hg. congruence.
  - split; [auto|]. split; [done|]. intros Hg. apply no_key_only_on_guard in Hg. congruence.
  - split; [auto|]. split; [done|]. intros Hg. apply no_key_only_on_guard in Hg. congruence.
Qed.

(** X2: a request makes at most one outbound call, and it changes the
    cache only when it answers 200 after such a call; the entry it then
    writes, under its own key, holds exactly the payload it answered with. *)
Theorem cache_holds_what_was_answered (rt : route) (r : response) (s : state) :
  serve (handler rt apiKey upstream now) c req = (inr r, s) ->
  (upstream_calls (st_log s) <= 1)%nat
  /\ (status r <> 200 -> st_cache s = c)
  /\ (upstream_calls (st_log s) = 0%nat -> st_cache s = c)
  /\ (st_cache s = c
      \/ (status r = 200
          /\ upstream_calls (st_log s) = 1%nat
          /\ exists key, cache_key rt req = Some key
             /\ st_cache s = Cache.set c now key (payload rt (body r)))).
Proof.
  intros Hrun. apply serve_inv in Hrun.
  inversion Hrun as [Hkey|key Hkey|key ? ? ? v Hkey|key ? ? ? Hkey|key ? ? ? Hkey];
    subst; cbn; repeat split; auto; try done.
  right. repeat split. exists key. by rewrite present_payload.
Qed.

(** X3: a request leaves every cache entry other than the one under its
    own key as it found it. *)
Theorem other_keys_untouched (rt : route) (r : response) (s : state) (key' : string) :
  serve (handler rt apiKey upstream now) c req = (inr r, s) ->
  cache_key rt req <> Some key' ->
  st_cache s !! key' = c !! key'.
Proof.
  intros Hrun Hne. apply serve_inv in Hrun.
  inversion Hrun as [Hkey|key Hkey|key ? ? ? v Hkey|key ? ? ? Hkey|key ? ? ? Hkey];
    subst; cbn; try done.
  unfold Cache.set. apply lookup_insert_ne. congruence.
Qed.

(** X4: [/news] is all or nothing: when the call resolves but
    [data.articles] is not an array, or one article (or its [source]) is
    [undefined] or [null], the answer is 500 ["Something went wrong"],
    nothing is cached and no part of the list is returned. *)
Theorem news_malformed_data_fails_whole_request (r : response) (s : state)
    (url : string) (params : list (string * value)) (d : value) :
  serve (news apiKey upstream now) c req = (inr r, s) ->
  In (AxiosGet url params) (st_log s) ->
  upstream url params = Resolve d ->
  (forall l, prop d "articles" = Some (VArr l) -> forallb well_formed l = false) ->
  r = Response 500 (message "Something went wrong")
  /\ st_cache s = c
  /\ st_log s = [CacheGet ("news-" +:+ to_string (param_or req "n" (VNum 10)));
                 AxiosGet url params; ConsoleError TypeError].
Proof.
  intros Hrun Hcall Hres Hbad. apply (serve_inv _ _ _ _ _ RNews) in Hrun.
  assert (fetched RNews d = None) as Hf.
  { cbn. destruct (prop d "articles") as [[| | | | |l|]|]; try done.
    by rewrite (Hbad l eq_refl). }
  inversion Hrun as [Hkey|key Hkey|key ? ? ? v Hkey|key ? ? ? Hkey|key ? ? ? Hkey];
    subst; cbn [st_log st_cache] in *.
  - discriminate.
  - destruct Hcall as [?|[]]; discriminate.
  - apply call_in_log in Hcall as [-> ->]; [congruence | done].
  - apply call_in_log in Hcall as [-> ->]; [congruence | done].
  - apply call_in_log in Hcall as [-> ->]; [|done].
    cbn in Hkey. injection Hkey as <-. done.
Qed.

(** X5: on [/news/find] and [/news/search], a call that resolves with
    [null] or [undefined] data is answered 500 with the route's message,
    after the [TypeError] is caught and logged, and nothing is cached. *)
Theorem find_and_search_null_data_fails (rt : route) (key : string) (d : value) :
  rt <> RNews ->
  cache_key rt req = Some key ->
  truthy (cached now c key) = false ->
  upstream (fst (outbound rt apiKey req)) (snd (outbound rt apiKey req)) = Resolve d ->
  nullish d = true ->
  serve (handler rt apiKey upstream now) c req =
  (inr (Response 500 (message match rt with
                              | RNews => "Something went wrong"
                              | RFind => "Failed to find news article"
                              | RSearch => "Failed to fetch news articles"
                              end)),
   State c [CacheGet key;
            AxiosGet (fst (outbound rt apiKey req)) (snd (outbound rt apiKey req));
            ConsoleError TypeError]).
Proof.
  intros Hrt Hkey Hmiss Hres Hnull.
  assert (fetched rt d = None) as Hf by (destruct rt, d; done).
  rewrite (miss_served _ _ _ _ _ _ _ Hkey Hmiss). cbn zeta. rewrite Hres, Hf.
  by destruct rt.
Qed.

(** X6: whatever is answered from the cache is fresh: a 200 answer without
    outbound call is the value of an entry under the request's key that was
    inserted at most 600 seconds ago, and the cache is left as it was. *)
Theorem cache_answers_are_fresh (rt : route) (r : response) (s : state) :
  serve (handler rt apiKey upstream now) c req = (inr r, s) ->
  status r = 200 ->
  upstream_calls (st_log s) = 0%nat ->
  exists key e,
    cache_key rt req = Some key
    /\ c !! key = Some e
    /\ now <= Cache.inserted e + 600
    /\ r = Response 200 (present rt (Cache.value_of e))
    /\ s = State c [CacheGet key].
Proof.
  intros Hrun Hst Hcalls. apply serve_inv in Hrun.
  inversion Hrun as [Hkey|key Hkey Ht|key ? ? ? v Hkey|key ? ? ? Hkey|key ? ? ? Hkey];
    subst; cbn in Hst, Hcalls; try discriminate.
  apply cached_truthy_get in Ht. unfold Cache.get in Ht.
  destruct (c !! key) as [e|] eqn:He; [|discriminate].
  destruct (Cache.live now e) eqn:Hlive; [|discriminate].
  injection Ht as Hv. exists key, e. rewrite <- Hv.
  repeat split; try done. unfold Cache.live, Cache.stdTTL in Hlive. lia.
Qed.

(** X7: the search call of [/news/search] carries the keyword as [q] and
    the token and nothing else: no [lang], no [max], unlike the call of
    [/news/find] to the same endpoint. *)
Theorem search_upstream_parameters :
  let keyword := param req "keyword" in
  let key := "news-search-" +:+ to_string keyword in
  truthy keyword = true ->
  truthy (cached now c key) = false ->
  exists rest,
    st_log (snd (serve (news_search apiKey upstream now) c req)) =
      CacheGet key
      :: AxiosGet "https://gnews.io/api/v4/search" [("q", keyword); ("token", apiKey)]
      :: rest
    /\ upstream_calls (st_log (snd (serve (news_search apiKey upstream now) c req)))
       = 1%nat.
Proof.
  intros keyword key Hk Miss. rewrite search_miss by done. cbn zeta.
  destruct (upstream _ _) as [d|detail]; [destruct (prop d "articles")|];
    eexists; split; reflexivity.
Qed.

End Further.

(** A request whose key has no live truthy entry goes to the provider,
    once. *)
Lemma miss_calls_upstream apiKey upstream now c req rt key :
  cache_key rt req = Some key ->
  truthy (cached now c key) = false ->
  exists r s url params rest,
    serve (handler rt apiKey upstream now) c req = (inr r, s)
    /\ st_log s = CacheGet key :: AxiosGet url params :: rest
    /\ upstream_calls (st_log s) = 1%nat.
Proof.
  intros Hkey Hmiss.
  destruct (serve_served apiKey upstream now c req rt) as (r & s & E & S).
  exists r, s.
  inversion S as [Hk|k Hk Ht|k url params ? ? Hk|k url params ? Hk|k url params ? Hk];
    subst; rewrite Hkey in Hk; try discriminate; injection Hk as <-;
    try congruence; exists url, params; eexists; repeat split; done.
Qed.

Section Sequences.

Variable apiKey : value.
Variables upstream upstream' : string -> list (string * value) -> upstream_result.
Variables now later : Z.
Variable times : list Z.
Variable c : gmap string Cache.entry.
Variable req : request.

(** X8: more than 600 seconds after a request was answered from the
    provider, the identical request goes to the provider again, with one
    outbound call, whether a sweep has removed the entry or not. *)
Theorem expired_entry_is_refetched (rt : route) (r : response) (s : state) :
  serve (handler rt apiKey upstream now) c req = (inr r, s) ->
  status r = 200 ->
  upstream_calls (st_log s) = 1%nat ->
  now + 600 < later ->
  exists key r' s' url params rest,
    cache_key rt req = Some key
    /\ serve (handler rt apiKey upstream' later) (sweeps times (st_cache s)) req
       = (inr r', s')
    /\ st_log s' = CacheGet key :: AxiosGet url params :: rest
    /\ upstream_calls (st_log s') = 1%nat.
Proof.
  intros Hrun Hst Hcalls Hlate. apply serve_inv in Hrun.
  inversion Hrun as [Hkey|key Hkey|key ? ? ? v Hkey|key ? ? ? Hkey|key ? ? ? Hkey];
    subst; cbn in Hst, Hcalls; try discriminate. cbn [st_cache].
  destruct (miss_calls_upstream apiKey upstream' later
              (sweeps times (Cache.set c now key v)) req rt key Hkey)
    as (r' & s' & url' & params' & rest & E & Hlog & Hone).
  { unfold cached. by rewrite get_sweeps_set_expired. }
  exists key, r', s', url', params', rest. done.
Qed.

(** X9: on [/news/find] and [/news/search], when the call resolves with
    an [articles] value that is falsy ([null], missing, [0], [""],
    [false]), the answer is not served from the cache afterwards: the
    identical request goes to the provider again at any later time. *)
Theorem falsy_articles_are_fetched_every_time (rt : route) (r : response) (s : state)
    (url : string) (params : list (string * value)) (d a : value) :
  rt <> RNews ->
  serve (handler rt apiKey upstream now) c req = (inr r, s) ->
  In (AxiosGet url params) (st_log s) ->
  upstream url params = Resolve d ->
  prop d "articles" = Some a ->
  truthy a = false ->
  upstream_calls
    (st_log (snd (serve (handler rt apiKey upstream' later)
                    (sweeps times (st_cache s)) req))) = 1%nat.
Proof.
  intros Hrt Hrun Hcall Hres Hart Hfalsy. apply serve_inv in Hrun.
  assert (fetched rt d = Some a) as Hf by (by destruct rt).
  inversion Hrun as [Hkey|key Hkey|key ? ? ? v Hkey|key ? ? ? Hkey|key ? ? ? Hkey];
    subst; cbn [st_log st_cache] in *.
  - destruct Hcall.
  - destruct Hcall as [?|[]]; discriminate.
  - apply call_in_log in Hcall as [-> ->]; [|done].
    assert (d0 = d) as -> by congruence. assert (v = a) as -> by congruence.
    destruct (miss_calls_upstream apiKey upstream' later
                (sweeps times (Cache.set c now key a)) req rt key Hkey)
      as (r' & s' & url' & params' & rest & E & Hlog & Hone).
    { unfold cached.
      destruct (get_sweeps_set times c now later key a) as [->|[_ ->]]; done. }
    by rewrite E.
  - apply call_in_log in Hcall as [-> ->]; [congruence | done].
  - apply call_in_log in Hcall as [-> ->]; [congruence | done].
Qed.

(** X10: an empty result is cached like any other: when the call resolves
    with [articles] the empty array, the handler answers 200 with the empty
    list and stores it, and the identical request within 600 seconds gets
    the same answer after the cache read, without outbound call. *)
Theorem empty_result_is_cached (rt : route) (key : string) (d : value) :
  cache_key rt req = Some key ->
  truthy (cached now c key) = false ->
  upstream (fst (outbound rt apiKey req)) (snd (outbound rt apiKey req)) = Resolve d ->
  prop d "articles" = Some (VArr []) ->
  now <= later <= now + 600 ->
  Forall (fun t => t <= later) times ->
  let r := Response 200 (present rt (VArr [])) in
  let stored := Cache.set c now key (VArr []) in
  serve (handler rt apiKey upstream now) c req =
    (inr r,
     State stored
       [CacheGet key;
        AxiosGet (fst (outbound rt apiKey req)) (snd (outbound rt apiKey req));
        CacheSet key (VArr [])])
  /\ serve (handler rt apiKey upstream' later) (sweeps times stored) req =
     (inr r, State (sweeps times stored) [CacheGet key]).
Proof.
  intros Hkey Hmiss Hres Hart Hwin Hsw r stored.
  assert (fetched rt d = Some (VArr [])) as Hf by (destruct rt; cbn; by rewrite ?Hart).
  split.
  - rewrite (miss_served _ _ _ _ _ _ _ Hkey Hmiss). cbn zeta. by rewrite Hres, Hf.
  - apply hit_served; [done | | done].
    rewrite get_sweeps by done. apply get_set_same. unfold Cache.stdTTL. lia.
Qed.

End Sequences.

(** X11: a hit does not extend the life of an entry: an answer fetched at
    [t1] and served from the cache at [t2] is fetched again at any [t3]
    more than 600 seconds after [t1], however close to [t2]. *)
Theorem hit_does_not_extend_lifetime
    (apiKey : value) (up1 up2 up3 : string -> list (string * value) -> upstream_result)
    (t1 t2 t3 : Z) (c : gmap string Cache.entry) (req : request)
    (rt : route) (r : response) (s : state) :
  serve (handler rt apiKey up1 t1) c req = (inr r, s) ->
  status r = 200 ->
  upstream_calls (st_log s) = 1%nat ->
  truthy (payload rt (body r)) = true ->
  t1 <= t2 <= t1 + 600 ->
  t1 + 600 < t3 ->
  exists s2,
    serve (handler rt apiKey up2 t2) (st_cache s) req = (inr r, s2)
    /\ upstream_calls (st_log s2) = 0%nat
    /\ upstream_calls
         (st_log (snd (serve (handler rt apiKey up3 t3) (st_cache s2) req))) = 1%nat.
Proof.
  intros Hrun Hst Hcalls Hv Hwin Hlate.
  destruct (fetched_then_hit apiKey up1 up2 t1 t2 [] c req req rt rt r s)
    as (key & Hkey & Hr & Hnext); try done.
  rewrite <- Hr in Hnext. cbn [sweeps foldl] in Hnext.
  eexists. split; [exact Hnext|]. split; [done|]. cbn [st_cache].
  apply serve_inv in Hrun.
  inversion Hrun as [Hk|k Hk|k ? ? ? v Hk|k ? ? ? Hk|k ? ? ? Hk];
    subst; cbn in Hst, Hcalls; try discriminate. cbn [st_cache].
  destruct (miss_calls_upstream apiKey up3 t3 (Cache.set c t1 k v) req rt k Hk)
    as (r' & s' & url' & params' & rest & E & Hlog & Hone).
  { unfold cached. by rewrite (get_sweeps_set_expired [] c t1 t3 k v Hlate : Cache.get (Cache.set c t1 k v) t3 k = None). }
  by rewrite E.
Qed.

(** X12: serving a request changes nothing for a request with another
    key: its answer and its effects are the same on the cache before and
    on the cache after. *)
Theorem different_keys_do_not_interfere
    (apiKey : value) (upA upB : string -> list (string * value) -> upstream_result)
    (tA tB : Z) (c : gmap string Cache.entry) (rtA rtB : route) (reqA reqB : request) :
  cache_key rtA reqA <> cache_key rtB reqB ->
  let after := st_cache (snd (serve (handler rtA apiKey upA tA) c reqA)) in
  fst (serve (handler rtB apiKey upB tB) after reqB)
    = fst (serve (handler rtB apiKey upB tB) c reqB)
  /\ st_log (snd (serve (handler rtB apiKey upB tB) after reqB))
     = st_log (snd (serve (handler rtB apiKey upB tB) c reqB)).
Proof.
  intros Hne after. apply serve_depends_on_own_key. intros key Hkey.
  destruct (serve_served apiKey upA tA c reqA rtA) as (r & s & E & S).
  unfold after. rewrite E. cbn [snd].
  inversion S as [Hk|k Hk|k ? ? ? v Hk|k ? ? ? Hk|k ? ? ? Hk]; subst; cbn; try done.
  apply get_set_other. congruence.
Qed.

(** ** Keys within and across routes *)

Lemma find_key_of_strings (t a : string) :
  cache_key RFind (Request (<["author" := VStr a]> {["title" := VStr t]}))
  = Some ("news-find-" +:+ t +:+ "-" +:+ a).
Proof.
  cbn. unfold param. cbn.
  by rewrite lookup_insert_eq, lookup_insert_ne, lookup_singleton_eq.
Qed.

(** X13: the ["-"] between title and author makes the key of
    [/news/find] ambiguous: title ["t-x"] with author ["a"] and title ["t"]
    with author ["x-a"] use the same key, so what was fetched for the first
    is answered to the second for the next 600 seconds. *)
Theorem find_key_dash_ambiguity
    (apiKey : value) (up1 up2 : string -> list (string * value) -> upstream_result)
    (t1 t2 : Z) (c : gmap string Cache.entry) (t x a : string)
    (r : response) (s : state) :
  let req1 := Request (<["author" := VStr a]> {["title" := VStr (t +:+ "-" +:+ x)]}) in
  let req2 := Request (<["author" := VStr (x +:+ "-" +:+ a)]> {["title" := VStr t]}) in
  serve (news_find apiKey up1 t1) c req1 = (inr r, s) ->
  status r = 200 ->
  upstream_calls (st_log s) = 1%nat ->
  truthy (pick (body r) "articles") = true ->
  t1 <= t2 <= t1 + 600 ->
  head (cache_keys (st_log s))
    = head (cache_keys (st_log (snd (serve (news_find apiKey up2 t2) (st_cache s) req2))))
  /\ serve (news_find apiKey up2 t2) (st_cache s) req2
     = (inr r, State (st_cache s) [CacheGet ("news-find-" +:+ t +:+ "-" +:+ x +:+ "-" +:+ a)]).
Proof.
  intros req1 req2 Hrun Hst Hcalls Hv Hwin.
  assert (cache_key RFind req2 = cache_key RFind req1) as Hsame.
  { unfold req1, req2. rewrite !find_key_of_strings. f_equal.
    change ("news-find-" +:+ t +:+ "-" +:+ x +:+ "-" +:+ a =
            "news-find-" +:+ (t +:+ "-" +:+ x) +:+ "-" +:+ a).
    f_equal. by rewrite append_assoc. }
  destruct (fetched_then_hit apiKey up1 up2 t1 t2 [] c req1 req2 RFind RFind r s)
    as (key & Hkey & Hr & Hnext); try done.
  cbn [sweeps foldl handler] in Hnext. rewrite <- Hr in Hnext.
  assert (key = "news-find-" +:+ t +:+ "-" +:+ x +:+ "-" +:+ a) as ->.
  { rewrite <- Hsame in Hkey. unfold req2 in Hkey.
    rewrite find_key_of_strings in Hkey. by injection Hkey as <-. }
  split; [|exact Hnext].
  rewrite Hnext. cbn.
  pose proof (keys_used apiKey up1 t1 c req1 RFind) as Hused.
  rewrite Hkey in Hused. cbn [handler] in Hused. rewrite Hrun in Hused. apply Hused.
Qed.

Section Keys.

Variable apiKey : value.
Variables up1 up2 : string -> list (string * value) -> upstream_result.
Variables t1 t2 : Z.
Variables c1 c2 : gmap string Cache.entry.
Variables req1 req2 : request.

(** X14: [/news/find] and [/news/search] never use the same cache key,
    whatever their parameters. *)
Theorem find_and_search_keys_are_disjoint :
  head (cache_keys (st_log (snd (serve (news_find apiKey up1 t1) c1 req1))))
  <> head (cache_keys (st_log (snd (serve (news_search apiKey up2 t2) c2 req2)))).
Proof.
  pose proof (keys_used apiKey up1 t1 c1 req1 RFind) as H1.
  pose proof (keys_used apiKey up2 t2 c2 req2 RSearch) as H2.
  cbn [handler] in H1, H2. cbn [cache_key] in H1.
  destruct H1 as [-> _].
  destruct (cache_key RSearch req2) as [k|] eqn:Hk.
  - destruct H2 as [-> _]. cbn in Hk.
    destruct (truthy (param req2 "keyword")); [|discriminate].
    injection Hk as <-. cbv [String.append]. discriminate.
  - rewrite H2. discriminate.
Qed.

(** X15: within [/news/search], and within [/news], requests whose
    parameter is a string use the same key only when the strings are
    equal. *)
Theorem string_parameters_give_distinct_keys :
  (forall k1 k2,
      query req1 !! "keyword" = Some (VStr k1) ->
      query req2 !! "keyword" = Some (VStr k2) ->
      head (cache_keys (st_log (snd (serve (news_search apiKey up1 t1) c1 req1))))
      = head (cache_keys (st_log (snd (serve (news_search apiKey up2 t2) c2 req2)))) ->
      k1 = k2)
  /\ (forall n1 n2,
        query req1 !! "n" = Some (VStr n1) ->
        query req2 !! "n" = Some (VStr n2) ->
        head (cache_keys (st_log (snd (serve (news apiKey up1 t1) c1 req1))))
        = head (cache_keys (st_log (snd (serve (news apiKey up2 t2) c2 req2)))) ->
        n1 = n2).
Proof.
  split.
  - intros k1 k2 Hk1 Hk2.
    pose proof (keys_used apiKey up1 t1 c1 req1 RSearch) as H1.
    pose proof (keys_used apiKey up2 t2 c2 req2 RSearch) as H2.
    cbn [handler cache_key] in H1, H2. unfold param in H1, H2.
    rewrite Hk1 in H1. rewrite Hk2 in H2. cbn in H1, H2.
    destruct k1 as [|ch1 k1], k2 as [|ch2 k2]; cbn in H1, H2; try done.
    + destruct H2 as [-> _]. rewrite H1. discriminate.
    + destruct H1 as [-> _]. rewrite H2. discriminate.
    + destruct H1 as [-> _]. destruct H2 as [-> _]. intros [= -> ->]. done.
  - intros n1 n2 Hn1 Hn2.
    pose proof (keys_used apiKey up1 t1 c1 req1 RNews) as H1.
    pose proof (keys_used apiKey up2 t2 c2 req2 RNews) as H2.
    cbn [handler cache_key] in H1, H2. unfold param_or, param in H1, H2.
    rewrite Hn1 in H1. rewrite Hn2 in H2. cbn in H1, H2.
    destruct H1 as [-> _]. destruct H2 as [-> _]. intros [= H]. exact H.
Qed.

End Keys.

(** ** The article mapping *)

(** X16: the mapping of [/news] is a projection: it does not touch the
    cache or the log, and a record it produced is mapped to itself. *)
Theorem reshape_is_idempotent (a o : value) (s s1 : state) :
  reshape a s = (inr o, s1) ->
  s1 = s /\ reshape o s = (inr o, s).
Proof.
  rewrite reshape_run. destruct (well_formed a); [|discriminate].
  intros [= <- <-]. split; [done|]. by rewrite reshape_run.
Qed.

(** X17: the mapping raises exactly on an article that is [undefined] or
    [null] or whose [source] is (a missing [source] included); any other
    missing field is tolerated and comes out as [undefined]. *)
Theorem reshape_raises_only_without_source (a : value) (s : state) :
  (nullish a = true \/ nullish (pick a "source") = true ->
   reshape a s = (inl TypeError, s))
  /\ (nullish a = false -> nullish (pick a "source") = false ->
      exists o, reshape a s = (inr o, s) /\ six_fields_of a o).
Proof.
  rewrite reshape_run. unfold well_formed. split.
  - intros [-> | ->]; [done|]. by rewrite andb_false_r.
  - intros -> ->. cbn. eauto using article_shape_six_fields.
Qed.

(** ** The further properties at concrete requests *)

(** X1 at [/news/search?keyword=x], whose keyword prints. *)
Lemma every_request_is_answered_witness :
  let req := Request {["keyword" := VStr "x"]} in
  forallb prints (printed RSearch req) = true
  /\ exists r s,
       serve (news_search (VStr "k") provider_up 0) empty_cache req = (inr r, s)
       /\ (status r = 200 \/ status r = 400 \/ status r = 500).
Proof.
  intros req.
  assert (forallb prints (printed RSearch req) = true) as Hp by by_computation.
  split; [exact Hp|].
  destruct (every_request_is_answered (VStr "k") provider_up 0 empty_cache req
              RSearch Hp) as (r & s & Hrun & Hst & _).
  exists r, s. split; assumption.
Defined.

(** X2 at [/news] with the provider up. *)
Lemma cache_holds_what_was_answered_witness :
  let out := serve (news (VStr "k") provider_up 0) empty_cache no_params in
  let r := Response 200 (VArr [article_shape sample_article]) in
  out = (inr r, snd out)
  /\ (upstream_calls (st_log (snd out)) <= 1)%nat.
Proof.
  intros out r.
  assert (out = (inr r, snd out)) as Hrun by by_computation.
  split; [exact Hrun|].
  exact (proj1 (cache_holds_what_was_answered (VStr "k") provider_up 0 empty_cache
                  no_params RNews r (snd out) Hrun)).
Defined.

(** X3 at [/news] with the provider up, for the key of another request. *)
Lemma other_keys_untouched_witness :
  let out := serve (news (VStr "k") provider_up 0) empty_cache no_params in
  let r := Response 200 (VArr [article_shape sample_article]) in
  out = (inr r, snd out)
  /\ cache_key RNews no_params <> Some "news-search-x"
  /\ st_cache (snd out) !! "news-search-x" = empty_cache !! "news-search-x".
Proof.
  intros out r.
  assert (out = (inr r, snd out)) as Hrun by by_computation.
  assert (cache_key RNews no_params <> Some "news-search-x") as Hne
    by (vm_compute; discriminate).
  split; [exact Hrun|]. split; [exact Hne|].
  exact (other_keys_untouched (VStr "k") provider_up 0 empty_cache no_params RNews r
           (snd out) "news-search-x" Hrun Hne).
Defined.

(** X4 at [/news] when the second article of the provider is [null]. *)
Lemma news_malformed_data_fails_whole_request_witness :
  let out := serve (news (VStr "k") provider_broken 0) empty_cache no_params in
  let r := Response 500 (message "Something went wrong") in
  let params := [("token", VStr "k"); ("lang", VStr "en"); ("max", VNum 10)] in
  out = (inr r, snd out)
  /\ st_cache (snd out) = empty_cache.
Proof.
  intros out r params.
  assert (out = (inr r, snd out)) as Hrun by by_computation.
  split; [exact Hrun|].
  apply (news_malformed_data_fails_whole_request (VStr "k") provider_broken 0
           empty_cache no_params r (snd out) "https://gnews.io/api/v4/top-headlines"
           params (VObj [("articles", VArr [sample_article; VNull])]) Hrun).
  - vm_compute. right; left; reflexivity.
  - reflexivity.
  - intros l [= <-]. reflexivity.
Defined.

(** X5 at [/news/find?title=a] and [/news/search?keyword=x] when the
    provider answers [null]. *)
Lemma find_and_search_null_data_fails_witness :
  let find := Request {["title" := VStr "a"]} in
  let search := Request {["keyword" := VStr "x"]} in
  fst (serve (news_find (VStr "k") provider_void 0) empty_cache find)
    = inr (Response 500 (message "Failed to find news article"))
  /\ fst (serve (news_search (VStr "k") provider_void 0) empty_cache search)
     = inr (Response 500 (message "Failed to fetch news articles")).
Proof.
  intros find search.
  assert (cache_key RFind find = Some "news-find-a-undefined") as Hf by by_computation.
  assert (cache_key RSearch search = Some "news-search-x") as Hs by by_computation.
  split.
  - pose proof (find_and_search_null_data_fails (VStr "k") provider_void 0 empty_cache
               find RFind "news-find-a-undefined" VNull ltac:(discriminate) Hf
               ltac:(by_computation) eq_refl eq_refl) as Hrun.
    cbn [handler] in Hrun. rewrite Hrun. reflexivity.
  - pose proof (find_and_search_null_data_fails (VStr "k") provider_void 0 empty_cache
               search RSearch "news-search-x" VNull ltac:(discriminate) Hs
               ltac:(by_computation) eq_refl eq_refl) as Hrun.
    cbn [handler] in Hrun. rewrite Hrun. reflexivity.
Defined.

(** X6 at [/news/find?title=a] on a cache holding an empty list since
    time 0, at time 600. *)
Lemma cache_answers_are_fresh_witness :
  let stored := Cache.set empty_cache 0 "news-find-a-undefined" (VArr []) in
  let req := Request {["title" := VStr "a"]} in
  let out := serve (news_find (VStr "k") provider_down 600) stored req in
  let r := Response 200 (VObj [("articles", VArr [])]) in
  out = (inr r, snd out)
  /\ exists key e,
       cache_key RFind req = Some key
       /\ stored !! key = Some e
       /\ 600 <= Cache.inserted e + 600
       /\ r = Response 200 (present RFind (Cache.value_of e))
       /\ snd out = State stored [CacheGet key].
Proof.
  intros stored req out r.
  assert (out = (inr r, snd out)) as Hrun by by_computation.
  split; [exact Hrun|].
  apply (cache_answers_are_fresh (VStr "k") provider_down 600 stored req RFind r
           (snd out) Hrun).
  - reflexivity.
  - by_computation.
Defined.

(** X7 at [/news/search?keyword=x] on an empty cache. *)
Lemma search_upstream_parameters_witness :
  let req := Request {["keyword" := VStr "x"]} in
  truthy (param req "keyword") = true
  /\ truthy (cached 0 empty_cache ("news-search-" +:+ to_string (param req "keyword")))
     = false
  /\ upstream_calls
       (st_log (snd (serve (news_search (VStr "k") provider_up 0) empty_cache req)))
     = 1%nat.
Proof.
  intros req.
  assert (truthy (param req "keyword") = true) as Hk by by_computation.
  assert (truthy (cached 0 empty_cache
            ("news-search-" +:+ to_string (param req "keyword"))) = false)
    as Hmiss by by_computation.
  split; [exact Hk|]. split; [exact Hmiss|].
  destruct (search_upstream_parameters (VStr "k") provider_up 0 empty_cache req Hk Hmiss)
    as (rest & _ & Hone).
  exact Hone.
Defined.

(** X8 at [/news], fetched at time 0 and asked again at time 601 after a
    sweep at time 120. *)
Lemma expired_entry_is_refetched_witness :
  let out := serve (news (VStr "k") provider_up 0) empty_cache no_params in
  let r := Response 200 (VArr [article_shape sample_article]) in
  out = (inr r, snd out)
  /\ exists key r' s' url params rest,
       cache_key RNews no_params = Some key
       /\ serve (news (VStr "k") provider_down 601) (sweeps [120] (st_cache (snd out)))
            no_params = (inr r', s')
       /\ st_log s' = CacheGet key :: AxiosGet url params :: rest
       /\ upstream_calls (st_log s') = 1%nat.
Proof.
  intros out r.
  assert (out = (inr r, snd out)) as Hrun by by_computation.
  split; [exact Hrun|].
  apply (expired_entry_is_refetched (VStr "k") provider_up provider_down 0 601 [120]
           empty_cache no_params RNews r (snd out) Hrun).
  - reflexivity.
  - by_computation.
  - lia.
Defined.

(** X9 at [/news/find?title=a] when the provider answers
    [{articles: null}]. *)
Lemma falsy_articles_are_fetched_every_time_witness :
  let req := Request {["title" := VStr "a"]} in
  let out := serve (news_find (VStr "k") provider_null 0) empty_cache req in
  let r := Response 200 (VObj [("articles", VNull)]) in
  out = (inr r, snd out)
  /\ upstream_calls
       (st_log (snd (serve (news_find (VStr "k") provider_null 1)
                       (sweeps [] (st_cache (snd out))) req))) = 1%nat.
Proof.
  intros req out r.
  assert (out = (inr r, snd out)) as Hrun by by_computation.
  split; [exact Hrun|].
  apply (falsy_articles_are_fetched_every_time (VStr "k") provider_null provider_null
           0 1 [] empty_cache req RFind r (snd out) "https://gnews.io/api/v4/search"
           [("q", VStr "a"); ("token", VStr "k"); ("lang", VStr "en");
            ("max", VNum 1); ("in", VStr "title")]
           (VObj [("articles", VNull)]) VNull).
  - discriminate.
  - exact Hrun.
  - vm_compute. right; left; reflexivity.
  - reflexivity.
  - reflexivity.
  - reflexivity.
Defined.

(** X10 on each route when the provider has no article. *)
Lemma empty_result_is_cached_witness :
  let find := Request {["title" := VStr "a"]} in
  let search := Request {["keyword" := VStr "x"]} in
  let data := VObj [("totalArticles", VNum 0); ("articles", VArr [])] in
  fst (serve (news (VStr "k") provider_down 300)
         (sweeps [120; 240] (Cache.set empty_cache 0 "news-10" (VArr []))) no_params)
    = inr (Response 200 (VArr []))
  /\ fst (serve (news_find (VStr "k") provider_down 300)
            (sweeps [120; 240] (Cache.set empty_cache 0 "news-find-a-undefined" (VArr [])))
            find)
     = inr (Response 200 (VObj [("articles", VArr [])]))
  /\ fst (serve (news_search (VStr "k") provider_empty 0) empty_cache search)
     = inr (Response 200 (VObj [("articles", VArr [])])).
Proof.
  intros find search data.
  assert (cache_key RNews no_params = Some "news-10") as Hn by by_computation.
  assert (cache_key RFind find = Some "news-find-a-undefined") as Hf by by_computation.
  assert (cache_key RSearch search = Some "news-search-x") as Hs by by_computation.
  assert (0 <= 300 <= 0 + 600) as Hwin by lia.
  assert (Forall (fun t => t <= 300) [120; 240]) as Hsw by (repeat constructor; lia).
  split; [|split].
  - pose proof (proj2 (empty_result_is_cached (VStr "k") provider_empty provider_down
               0 300 [120; 240] empty_cache no_params RNews "news-10" data Hn
               ltac:(by_computation) eq_refl eq_refl Hwin Hsw)) as Hrun.
    cbn [handler] in Hrun. rewrite Hrun. reflexivity.
  - pose proof (proj2 (empty_result_is_cached (VStr "k") provider_empty provider_down
               0 300 [120; 240] empty_cache find RFind "news-find-a-undefined" data Hf
               ltac:(by_computation) eq_refl eq_refl Hwin Hsw)) as Hrun.
    cbn [handler] in Hrun. rewrite Hrun. reflexivity.
  - pose proof (proj1 (empty_result_is_cached (VStr "k") provider_empty provider_down
               0 300 [120; 240] empty_cache search RSearch "news-search-x" data Hs
               ltac:(by_computation) eq_refl eq_refl Hwin Hsw)) as Hrun.
    cbn [handler] in Hrun. rewrite Hrun. reflexivity.
Defined.

(** X11 at [/news]: fetched at 0, served from the cache at 600, fetched
    again at 601. *)
Lemma hit_does_not_extend_lifetime_witness :
  let out := serve (news (VStr "k") provider_up 0) empty_cache no_params in
  let r := Response 200 (VArr [article_shape sample_article]) in
  out = (inr r, snd out)
  /\ exists s2,
       serve (news (VStr "k") provider_down 600) (st_cache (snd out)) no_params
         = (inr r, s2)
       /\ upstream_calls (st_log s2) = 0%nat
       /\ upstream_calls
            (st_log (snd (serve (news (VStr "k") provider_up 601) (st_cache s2) no_params)))
          = 1%nat.
Proof.
  intros out r.
  assert (out = (inr r, snd out)) as Hrun by by_computation.
  split; [exact Hrun|].
  apply (hit_does_not_extend_lifetime (VStr "k") provider_up provider_down provider_up
           0 600 601 empty_cache no_params RNews r (snd out) Hrun).
  - reflexivity.
  - by_computation.
  - reflexivity.
  - lia.
  - lia.
Defined.

(** X12 for [/news] served before [/news/search?keyword=x]. *)
Lemma different_keys_do_not_interfere_witness :
  let req := Request {["keyword" := VStr "x"]} in
  let after := st_cache (snd (serve (news (VStr "k") provider_up 0) empty_cache no_params)) in
  cache_key RNews no_params <> cache_key RSearch req
  /\ fst (serve (news_search (VStr "k") provider_down 1) after req)
     = fst (serve (news_search (VStr "k") provider_down 1) empty_cache req).
Proof.
  intros req after.
  assert (cache_key RNews no_params <> cache_key RSearch req) as Hne
    by (vm_compute; discriminate).
  split; [exact Hne|].
  exact (proj1 (different_keys_do_not_interfere (VStr "k") provider_up provider_down
                  0 1 empty_cache RNews RSearch no_params req Hne)).
Defined.

(** X13 for title ["a-b"], author ["c"] and title ["a"], author ["b-c"]. *)
Lemma find_key_dash_ambiguity_witness :
  let req1 := Request (<["author" := VStr "c"]> {["title" := VStr "a-b"]}) in
  let req2 := Request (<["author" := VStr "b-c"]> {["title" := VStr "a"]}) in
  let out := serve (news_find (VStr "k") provider_up 0) empty_cache req1 in
  let r := Response 200 (VObj [("articles", VArr [sample_article])]) in
  out = (inr r, snd out)
  /\ serve (news_find (VStr "k") provider_down 10) (st_cache (snd out)) req2
     = (inr r, State (st_cache (snd out)) [CacheGet "news-find-a-b-c"]).
Proof.
  intros req1 req2 out r.
  assert (out = (inr r, snd out)) as Hrun by by_computation.
  split; [exact Hrun|].
  apply (find_key_dash_ambiguity (VStr "k") provider_up provider_down 0 10 empty_cache
           "a" "b" "c" r (snd out) Hrun).
  - reflexivity.
  - by_computation.
  - reflexivity.
  - lia.
Defined.

(** X15 for the keywords ["x"] and ["y"]: the keys differ. *)
Lemma string_parameters_give_distinct_keys_witness :
  let reqx := Request {["keyword" := VStr "x"]} in
  let reqy := Request {["keyword" := VStr "y"]} in
  head (cache_keys (st_log (snd (serve (news_search (VStr "k") provider_up 0)
                                   empty_cache reqx))))
  <> head (cache_keys (st_log (snd (serve (news_search (VStr "k") provider_up 0)
                                      empty_cache reqy)))).
Proof.
  intros reqx reqy Heq.
  assert (query reqx !! "keyword" = Some (VStr "x")) as Hx by by_computation.
  assert (query reqy !! "keyword" = Some (VStr "y")) as Hy by by_computation.
  pose proof (proj1 (string_parameters_give_distinct_keys (VStr "k") provider_up
                       provider_up 0 0 empty_cache empty_cache reqx reqy)
                "x" "y" Hx Hy Heq) as Hxy.
  discriminate Hxy.
Defined.

(** X16 at the sample article. *)
Lemma reshape_is_idempotent_witness :
  let s := State empty_cache [] in
  let o := article_shape sample_article in
  reshape sample_article s = (inr o, s)
  /\ reshape o s = (inr o, s).
Proof.
  intros s o.
  assert (reshape sample_article s = (inr o, s)) as Hrun by by_computation.
  split; [exact Hrun|].
  exact (proj2 (reshape_is_idempotent sample_article o s s Hrun)).
Defined.

(** X17 at an article without [source], and at one with nothing but a
    [source]. *)
Lemma reshape_raises_only_without_source_witness :
  let s := State empty_cache [] in
  reshape (VObj [("title", VStr "T")]) s = (inl TypeError, s)
  /\ exists o,
       reshape (VObj [("source", VObj [])]) s = (inr o, s)
       /\ six_fields_of (VObj [("source", VObj [])]) o.
Proof.
  intros s. split.
  - apply (proj1 (reshape_raises_only_without_source (VObj [("title", VStr "T")]) s)).
    right. reflexivity.
  - apply (proj2 (reshape_raises_only_without_source (VObj [("source", VObj [])]) s));
      reflexivity.
Defined.
